(** * Serial ingestion and recording core of the sign-language glove desktop app

    Shallow embedding of [src-tauri/src/main.rs]: the shared serial state
    ([SerialState]), the commands [connect_serial], [disconnect_serial] and
    [is_serial_connected], the background reader spawned by [connect_serial],
    the CSV recorder [save_recording], [predict_gesture], the text-to-speech
    command [tts_say] on its three platforms, [list_ports], the simulator
    commands ([start_simulator], [stop_simulator], [is_simulator_running],
    [kill_all_simulators]) and [debug_buffer].

    Modelling choices:
    - Rust [String] values are Stdlib [string]s (ASCII characters); the wire
      protocol is ASCII, and a chunk read from the port is represented by the
      text [String::from_utf8_lossy] produces from it.
    - [f64] arithmetic in [save_recording] is modelled in [Q]: the operands
      are [i32] values, whose conversion to [f64] and whose differences are
      exact in [f64]; only the final division rounds, and it is modelled
      exactly.
    - Effects (file system, serial port, HTTP, processes) are explicit
      inputs: an environment record, a runner giving each command's output,
      or a list of outcomes; the commands return the visible effects (events
      emitted, file contents, requests sent, commands run).
    - Paths are lists of components. *)

From Stdlib Require Import String Ascii List Bool Arith Lia ZArith QArith
  Qminmax.
From Stdlib Require Import Numbers.DecimalString Lqa.
Import ListNotations.

Local Open Scope string_scope.
Local Open Scope nat_scope.
Local Open Scope list_scope.

(** ** Rust [str] helpers used by the reader *)
Module RStr.

Definition newline : ascii := Ascii.ascii_of_nat 10.
Definition comma : ascii := ","%char.

(** [char::is_whitespace] on ASCII: U+0009..U+000D and U+0020. *)
Definition is_whitespace (c : ascii) : bool :=
  let n := Ascii.nat_of_ascii c in
  ((9 <=? n) && (n <=? 13)) || (n =? 32).

(** [str::find(c)]: byte index of the first occurrence of [c]. *)
Fixpoint find (c : ascii) (s : string) : option nat :=
  match s with
  | EmptyString => None
  | String c' s' => if Ascii.eqb c' c then Some 0 else option_map S (find c s')
  end.

(** [&s[..n]] *)
Fixpoint slice_to (n : nat) (s : string) : string :=
  match n, s with
  | O, _ => EmptyString
  | _, EmptyString => EmptyString
  | S n', String c s' => String c (slice_to n' s')
  end.

(** [&s[n..]] *)
Fixpoint slice_from (n : nat) (s : string) : string :=
  match n, s with
  | O, _ => s
  | _, EmptyString => EmptyString
  | S n', String _ s' => slice_from n' s'
  end.

Fixpoint trim_start (s : string) : string :=
  match s with
  | EmptyString => EmptyString
  | String c s' => if is_whitespace c then trim_start s' else s
  end.

Fixpoint trim_end (s : string) : string :=
  match s with
  | EmptyString => EmptyString
  | String c s' =>
      let t := trim_end s' in
      match t with
      | EmptyString => if is_whitespace c then EmptyString else String c EmptyString
      | _ => String c t
      end
  end.

(** [str::trim] *)
Definition trim (s : string) : string := trim_end (trim_start s).

(** [str::split(sep)], collected: [""] splits into [[""]]. *)
Fixpoint split (sep : ascii) (s : string) : list string :=
  match s with
  | EmptyString => [EmptyString]
  | String c s' =>
      let parts := split sep s' in
      if Ascii.eqb c sep then EmptyString :: parts
      else match parts with
           | p :: ps => String c p :: ps
           | [] => [String c EmptyString]
           end
  end.

End RStr.

(** ** Shared connection state ([struct SerialState]) *)

(** An open port, as returned by [serialport::new(..).timeout(100ms).open()]. *)
Record SerialPort := mkSerialPort {
  sp_name : string;
  sp_baud_rate : N;
  sp_timeout_ms : N
}.

Record SerialState := mkSerialState {
  port : option SerialPort;
  is_connected : bool
}.

(** Initial value managed in [main]. *)
Definition initial_serial_state : SerialState :=
  {| port := None; is_connected := false |}.

(** ** The reader task spawned by [connect_serial] (main.rs:214-268) *)
Module Reader.
Import RStr.

(** Events sent with [app_handle.emit_all]. *)
Inductive event :=
| SensorData (payload : string)   (* "sensor-data" *)
| SerialError (msg : string).     (* "serial-error" *)

(** What [port.read] returns on an iteration; [ReadOk chunk] carries the
    decoded bytes read ([bytes_read] is the length of [chunk]). *)
Inductive read_result :=
| ReadOk (chunk : string)
| ReadTimedOut
| ReadFailed (err : string).

Inductive control := Continue | Break.

(** Local state of the task: its line buffer, and the events it has
    emitted so far. *)
Record worker := mkWorker {
  buffer : string;
  emitted : list event
}.

Definition initial_worker : worker := {| buffer := EmptyString; emitted := [] |}.

(** Body of the [if !line.is_empty()] block for one extracted line. *)
Definition process_line (raw_line : string) : list event :=
  let line := trim raw_line in
  if String.eqb line EmptyString then []
  else
    let parts := split comma line in
    if Nat.eqb (List.length parts) 6 then [SensorData line] else [].

(** [while let Some(newline_pos) = buffer.find('\n') { ... }]; every
    iteration removes at least one character, so [length buffer] rounds
    suffice. *)
Fixpoint drain_lines (fuel : nat) (buf : string) : list event * string :=
  match fuel with
  | O => ([], buf)
  | S fuel' =>
      match find newline buf with
      | None => ([], buf)
      | Some newline_pos =>
          let line := slice_to newline_pos buf in
          let rest := slice_from (newline_pos + 1) buf in
          let (evs, buf') := drain_lines fuel' rest in
          (process_line line ++ evs, buf')
      end
  end.

Definition process_complete_lines (buf : string) : list event * string :=
  drain_lines (String.length buf) buf.

(** One iteration of the [loop]; the connection state is only read. *)
Definition worker_iteration (st : SerialState) (w : worker) (r : read_result)
  : worker * control :=
  if negb (is_connected st) then (w, Break)
  else
    match port st with
    | None => (w, Continue)
    | Some _ =>
        match r with
        | ReadOk chunk =>
            if String.eqb chunk EmptyString then (w, Continue)
            else
              let (evs, rest) := process_complete_lines (String.append (buffer w) chunk) in
              ({| buffer := rest; emitted := emitted w ++ evs |}, Continue)
        | ReadTimedOut => (w, Continue)
        | ReadFailed e =>
            ({| buffer := buffer w;
                emitted := emitted w ++ [SerialError (String.append "Read error: " e)] |},
             Break)
        end
    end.

(** Runs the loop with [reads] giving, per iteration, what [port.read]
    returns if it is called; the result says whether the task is still
    running. *)
Fixpoint run_worker (st : SerialState) (w : worker) (reads : list read_result)
  : worker * control :=
  match reads with
  | [] => (w, Continue)
  | r :: rs =>
      match worker_iteration st w r with
      | (w', Continue) => run_worker st w' rs
      | (w', Break) => (w', Break)
      end
  end.

(** Text made of complete lines [ls] followed by a partial line [rest]. *)
Definition lf : string := String newline EmptyString.

Fixpoint join_lines (ls : list string) (rest : string) : string :=
  match ls with
  | [] => rest
  | l :: ls' => String.append l (String.append lf (join_lines ls' rest))
  end.

Definition has_no_newline (s : string) : bool :=
  match find newline s with None => true | Some _ => false end.

End Reader.

(** ** Command results *)

(** [Result<A, String>] of a Tauri command. *)
Inductive result (A : Type) :=
| Ok (a : A)
| Err (msg : string).
Arguments Ok {A} a.
Arguments Err {A} msg.

(** A command either returns or panics (index out of bounds). *)
Inductive outcome (A : Type) :=
| Returned (r : result A)
| Panicked (msg : string).
Arguments Returned {A} r.
Arguments Panicked {A} msg.

Definition nat_to_string (n : nat) : string :=
  NilEmpty.string_of_uint (Nat.to_uint n).

Definition N_to_string (n : N) : string :=
  NilEmpty.string_of_uint (N.to_uint n).

Definition Z_to_string (z : Z) : string :=
  NilEmpty.string_of_int (Z.to_int z).

(** ** Connection commands (main.rs:179-292) *)
Module Connection.

(** [serialport::new(&port_name, baud_rate).timeout(..).open()], as an
    input: the port or the OS error text. *)
Definition port_opener := string -> N -> N -> result SerialPort.

(** [connect_serial]: the new shared state, and the reader task it spawns
    (in its initial state) when it succeeds. *)
Definition connect_serial (open : port_opener) (port_name : string)
    (baud_rate : N) (st : SerialState)
    : result unit * SerialState * option Reader.worker :=
  if is_connected st then (Err "Already connected to a port", st, None)
  else
    match open port_name baud_rate 100%N with
    | Err e =>
        (Err (String.append "Failed to open port "
                (String.append port_name (String.append ": " e))), st, None)
    | Ok p =>
        let st1 := {| port := Some p; is_connected := is_connected st |} in
        let st2 := {| port := port st1; is_connected := true |} in
        (Ok tt, st2, Some Reader.initial_worker)
    end.

(** [disconnect_serial]: clear the flag, then drop the port. *)
Definition disconnect_serial (st : SerialState) : result unit * SerialState :=
  let st1 := {| port := port st; is_connected := false |} in
  let st2 := {| port := None; is_connected := is_connected st1 |} in
  (Ok tt, st2).

Definition is_serial_connected (st : SerialState) : result bool :=
  Ok (is_connected st).

(** The reader task polls [is_connected] at the top of every iteration
    and reads from the port only while it is set: the code keeps no
    reading flag of its own, this is the flag that plays that part. *)
Definition reading_active (st : SerialState) : bool := is_connected st.

(** States reachable from [initial_serial_state] through the commands. *)
Inductive reachable : SerialState -> Prop :=
| reach_init : reachable initial_serial_state
| reach_connect : forall open name baud st r st' w,
    reachable st -> connect_serial open name baud st = (r, st', w) -> reachable st'
| reach_disconnect : forall st r st',
    reachable st -> disconnect_serial st = (r, st') -> reachable st'.

End Connection.

(** ** [save_recording] (main.rs:294-380) *)
Module Recorder.

Record SensorSample := mkSample {
  timestamp : Z;
  ch0 : Z; ch1 : Z; ch2 : Z; ch3 : Z; ch4 : Z
}.

Record CalibrationData := mkCalibration {
  baseline : list Z;
  maxbend : list Z
}.

(** The file system as [save_recording] meets it. *)
Record FsEnv := mkFsEnv {
  app_data_dir : option string;   (* [path_resolver().app_data_dir()] *)
  create_dir_ok : bool;           (* [create_dir_all] succeeds *)
  open_ok : bool;                 (* [OpenOptions::..open] succeeds *)
  write_ok : bool;                (* [writeln!] calls succeed *)
  io_error : string;              (* text of the I/O error otherwise *)
  now_secs : N                    (* [SystemTime::now()] since the epoch *)
}.

(** One data row, before text formatting. *)
Record CsvRow := mkRow {
  row_timestamp : Z;
  row_user_id : string;
  row_session_id : string;
  row_class_label : string;
  row_raw : list Z;
  row_norm : list Q;
  row_baseline : list Z;
  row_maxbend : list Z
}.

Inductive csv_line :=
| HeaderLine (text : string)
| DataLine (r : CsvRow).

Definition csv_header : string :=
  "timestamp_ms,user_id,session_id,class_label,ch0_raw,ch1_raw,ch2_raw,ch3_raw,ch4_raw,ch0_norm,ch1_norm,ch2_norm,ch3_norm,ch4_norm,baseline_ch0,baseline_ch1,baseline_ch2,baseline_ch3,baseline_ch4,maxbend_ch0,maxbend_ch1,maxbend_ch2,maxbend_ch3,maxbend_ch4,glove_fit,sensor_map_ref,notes".

(** Body of [for i in 0..5] for one channel, once [baseline] and
    [maxbend] are read: [norm[i]] starts at [0.0]. *)
Definition norm_channel (raw b m : Z) : Q :=
  let baseline := inject_Z b in
  let maxbend := inject_Z m in
  let range := (maxbend - baseline)%Q in
  if negb (Qle_bool range 0) then
    Qmin (Qmax ((inject_Z raw - baseline) / range) 0) 1
  else 0%Q.

Definition raw_values (s : SensorSample) : list Z :=
  [ch0 s; ch1 s; ch2 s; ch3 s; ch4 s].

(** Channel [i]: [calibration.baseline[i]] and [calibration.maxbend[i]]
    panic when out of range. *)
Definition norm_at (cal : CalibrationData) (raw : list Z) (i : nat) : option Q :=
  match nth_error (baseline cal) i with
  | None => None
  | Some b =>
      match nth_error (maxbend cal) i with
      | None => None
      | Some m => Some (norm_channel (nth i raw 0%Z) b m)
      end
  end.

Fixpoint map_opt {A B : Type} (f : A -> option B) (l : list A) : option (list B) :=
  match l with
  | [] => Some []
  | x :: xs =>
      match f x with
      | None => None
      | Some y => match map_opt f xs with None => None | Some ys => Some (y :: ys) end
      end
  end.

Definition sample_norms (cal : CalibrationData) (s : SensorSample) : option (list Q) :=
  map_opt (norm_at cal (raw_values s)) (seq 0 5).

(** The data-row loop: [written] is the file content so far. *)
Fixpoint write_rows (env : FsEnv) (user_id session_id gesture : string)
    (cal : CalibrationData) (samples : list SensorSample) (written : list csv_line)
    (filepath : string) : outcome string * option (list csv_line) :=
  match samples with
  | [] => (Returned (Ok filepath), Some written)
  | s :: rest =>
      match sample_norms cal s with
      | None => (Panicked "index out of bounds", Some written)
      | Some norm =>
          let row := {| row_timestamp := timestamp s; row_user_id := user_id;
                        row_session_id := session_id; row_class_label := gesture;
                        row_raw := raw_values s; row_norm := norm;
                        row_baseline := firstn 5 (baseline cal);
                        row_maxbend := firstn 5 (maxbend cal) |} in
          write_rows env user_id session_id gesture cal rest
            (written ++ [DataLine row]) filepath
      end
  end.

(** [save_recording]: the command's outcome, and the content of the file
    it leaves on disk ([None]: no file created). *)
Definition save_recording (env : FsEnv) (samples : list SensorSample)
    (gesture user_id session_id : string) (calibration : CalibrationData)
    : outcome string * option (list csv_line) :=
  match app_data_dir env with
  | None => (Returned (Err "Failed to get app data directory"), None)
  | Some app_dir =>
      let data_dir := String.append app_dir "/recordings" in
      if negb (create_dir_ok env) then
        (Returned (Err (String.append "Failed to create data directory: " (io_error env))), None)
      else
        let filename :=
          String.append user_id (String.append "_" (String.append session_id
            (String.append "_" (String.append gesture (String.append "_"
              (String.append (N_to_string (now_secs env)) ".csv")))))) in
        let filepath := String.append data_dir (String.append "/" filename) in
        if negb (open_ok env) then
          (Returned (Err (String.append "Failed to create file: " (io_error env))), None)
        else if negb (write_ok env) then
          (Returned (Err (String.append "Failed to write header: " (io_error env))), Some [])
        else
          write_rows env user_id session_id gesture calibration samples
            [HeaderLine csv_header] filepath
  end.

End Recorder.

(** ** Input checks of [predict_gesture] (main.rs:595-680) *)
Module Predict.
Import Recorder.

Record ApiRequest := mkApiRequest {
  flex_sensors : list (list Q);
  device_id : string
}.

Record ApiResponse := mkApiResponse {
  letter : string;
  confidence : Q;
  processing_time_ms : Q;
  model_name : string
}.

(** [PredictionResult]; its [pattern] and [debug_log] texts, which only
    report timings, are left out. *)
Record PredictionResult := mkPrediction {
  p_letter : string;
  p_confidence : Q
}.

(** [send]: the HTTP POST, giving the status (success or not) and the
    response text, or the transport error; [parse]: [serde_json::from_str].
    The second component lists the requests sent. *)
Definition predict_gesture
    (send : ApiRequest -> result (bool * string))
    (parse : string -> option ApiResponse)
    (samples : list SensorSample) : result PredictionResult * list ApiRequest :=
  if Nat.eqb (List.length samples) 0 then (Err "No samples provided", [])
  else if Nat.ltb (List.length samples) 50 then
    (Err (String.append "Not enough samples. Need at least 50, got "
            (nat_to_string (List.length samples))), [])
  else
    let flex := map (fun s => map inject_Z (raw_values s)) samples in
    let req := {| flex_sensors := flex; device_id := "desktop-app" |} in
    match send req with
    | Err e => (Err (String.append "API request failed: " e), [req])
    | Ok (success, text) =>
        if negb success then (Err (String.append "API returned error: " text), [req])
        else
          match parse text with
          | None => (Err (String.append "Failed to parse API response: " text), [req])
          | Some r => (Ok {| p_letter := letter r; p_confidence := confidence r |}, [req])
          end
    end.

End Predict.

(** ** Commands and the reader task over one shared state *)
Module App.
Import Reader.

(** The managed [SerialState] and the reader task last spawned, with
    whether its loop is still running. *)
Record app := mkApp {
  shared : SerialState;
  task : option (worker * control)
}.

Definition initial_app : app := {| shared := initial_serial_state; task := None |}.

Inductive action :=
| DoConnect (open : Connection.port_opener) (name : string) (baud : N)
| DoDisconnect
| TaskIteration (r : read_result).

Definition app_step (a : app) (act : action) : app :=
  match act with
  | DoConnect open name baud =>
      match Connection.connect_serial open name baud (shared a) with
      | (_, st', Some w) => {| shared := st'; task := Some (w, Continue) |}
      | (_, st', None) => {| shared := st'; task := task a |}
      end
  | DoDisconnect =>
      let '(_, st') := Connection.disconnect_serial (shared a) in
      {| shared := st'; task := task a |}
  | TaskIteration r =>
      match task a with
      | Some (w, Continue) =>
          {| shared := shared a; task := Some (worker_iteration (shared a) w r) |}
      | _ => a
      end
  end.

Definition run_app (a : app) (acts : list action) : app := fold_left app_step acts a.

End App.

(** ** The normalization as the spec states it *)
Module NormSpec.

Definition clamp (x lo hi : Q) : Q := Qmax lo (Qmin x hi).

(** [normalized = clamp((raw - baseline) / (max_bend - baseline), 0.0, 1.0)],
    and [0.0] when [max_bend - baseline <= 0]. *)
Definition spec_normalized (raw b m : Z) : Q :=
  if Z.leb (m - b) 0 then 0%Q
  else clamp (inject_Z (raw - b) / inject_Z (m - b)) 0 1.

End NormSpec.

(** ** [pause_reading] / [resume_reading] *)
Module PauseSpec.

(** Modelled from the spec: the [pause_reading] and [resume_reading]
    commands (spec 4.1 and 6) are not in [main.rs]. Connection state with
    the [reading_active] flag of the spec; both commands toggle it only
    while connected, are no-ops when already in the target state or when
    disconnected, never fail, and keep the device handle. *)
Record conn := mkConn {
  c_port : option SerialPort;
  c_connected : bool;
  c_reading_active : bool
}.

Definition pause (c : conn) : result unit * conn :=
  if c_connected c then
    (Ok tt, {| c_port := c_port c; c_connected := c_connected c; c_reading_active := false |})
  else (Ok tt, c).

Definition resume (c : conn) : result unit * conn :=
  if c_connected c then
    (Ok tt, {| c_port := c_port c; c_connected := c_connected c; c_reading_active := true |})
  else (Ok tt, c).

End PauseSpec.

(** ** External commands ([std::process::Command]) *)
Module Proc.

(** [Output] of a finished process. *)
Record Output := mkOutput {
  status_success : bool;
  stdout : string;
  stderr : string
}.

(** [Command::new(program).args(args).output()]: the process's output, or
    the error text when it cannot be executed. *)
Definition runner := string -> list string -> result Output.

(** The commands run, in order. *)
Definition trace := list (string * list string).

(** [cfg(target_os)] *)
Inductive target_os := Windows | MacOS | Linux.

End Proc.

(** ** Text-to-speech ([tts_say], main.rs:24-158) *)
Module Tts.
Import RStr Proc.

Definition dquote : ascii := Ascii.ascii_of_nat 34.
Definition backquote : ascii := "`"%char.
Definition squote : ascii := "'"%char.
Definition backslash : ascii := "\"%char.

(** [str::replace(c, rep)] for a one-character pattern. *)
Fixpoint replace_char (c : ascii) (rep : string) (s : string) : string :=
  match s with
  | EmptyString => EmptyString
  | String c' s' =>
      if Ascii.eqb c' c then String.append rep (replace_char c rep s')
      else String c' (replace_char c rep s')
  end.

(** The Rust [text.replace(dq, bs dq).replace(bq, empty)]: a double quote
    becomes a backslash and a double quote, and backquotes are removed. *)
Definition sanitize (text : string) : string :=
  replace_char backquote EmptyString
    (replace_char dquote (String backslash (String dquote EmptyString)) text).

(** [text.replace("'", "''")], the quoting of the Windows script. *)
Definition ps_escape (text : string) : string :=
  replace_char squote (String squote (String squote EmptyString)) text.

Definition lines (ls : list string) : string :=
  match ls with
  | [] => EmptyString
  | l :: ls' => fold_left (fun acc x => String.append acc (String.append Reader.lf x)) ls' l
  end.

(** The [format!] of [tts_say_windows]. *)
Definition ps_script (culture_code text : string) : string :=
  lines
    [ EmptyString;
      "        Add-Type -AssemblyName System.Speech";
      "        $synth = New-Object System.Speech.Synthesis.SpeechSynthesizer";
      "        ";
      "        # Try to select a voice for the specified culture";
      "        $voice = $synth.GetInstalledVoices() | Where-Object {";
      String.append "            $_.VoiceInfo.Culture.Name -eq '"
        (String.append culture_code "'");
      "        } | Select-Object -First 1";
      "        ";
      "        if ($voice) {";
      "            $synth.SelectVoice($voice.VoiceInfo.Name)";
      "        }";
      "        ";
      String.append "        $synth.Speak('" (String.append (ps_escape text) "')");
      "        $synth.Dispose()";
      "        " ].

Definition windows_culture (lang : string) : string :=
  if String.eqb lang "tr-TR" || String.eqb lang "tr" then "tr-TR"
  else if String.eqb lang "en-US" || String.eqb lang "en" then "en-US"
  else if String.eqb lang "en-GB" then "en-GB"
  else "en-US".

Definition tts_say_windows (run : runner) (text lang : string) : result unit * trace :=
  let culture_code := windows_culture lang in
  let args := ["-NoProfile"; "-NonInteractive"; "-Command"; ps_script culture_code text] in
  let tr := [("powershell", args)] in
  match run "powershell" args with
  | Err e => (Err (String.append "Failed to execute PowerShell: " e), tr)
  | Ok out =>
      if negb (status_success out) then
        (Err (String.append "PowerShell TTS failed: " (stderr out)), tr)
      else (Ok tt, tr)
  end.

Definition macos_voice (lang : string) : string :=
  if String.eqb lang "tr-TR" || String.eqb lang "tr" then "Yelda"
  else if String.eqb lang "en-US" || String.eqb lang "en" then "Samantha"
  else if String.eqb lang "en-GB" then "Daniel"
  else "Samantha".

Definition tts_say_macos (run : runner) (text lang : string) : result unit * trace :=
  let voice := macos_voice lang in
  let c1 := ("say", ["-v"; voice; text]) in
  match run "say" ["-v"; voice; text] with
  | Err e => (Err (String.append "Failed to execute 'say' command: " e), [c1])
  | Ok out =>
      if negb (status_success out) then
        let c2 := ("say", [text]) in
        match run "say" [text] with
        | Err e =>
            (Err (String.append "Failed to execute 'say' command (fallback): " e), [c1; c2])
        | Ok out2 =>
            if negb (status_success out2) then
              (Err (String.append "macOS TTS failed: " (stderr out2)), [c1; c2])
            else (Ok tt, [c1; c2])
        end
      else (Ok tt, [c1])
  end.

Definition linux_lang (lang : string) : string :=
  if String.eqb lang "tr-TR" || String.eqb lang "tr" then "tr"
  else if String.eqb lang "en-US" || String.eqb lang "en" || String.eqb lang "en-GB" then "en"
  else "en".

Definition tts_say_linux (run : runner) (text lang : string) : result unit * trace :=
  let lang_code := linux_lang lang in
  let args := ["-l"; lang_code; text] in
  let tr := [("spd-say", args)] in
  match run "spd-say" args with
  | Err e =>
      (Err (String.append "Failed to execute 'spd-say': "
              (String.append e ". Make sure speech-dispatcher is installed.")), tr)
  | Ok out =>
      if negb (status_success out) then
        (Err (String.append "Linux TTS failed: " (stderr out)), tr)
      else (Ok tt, tr)
  end.

Definition tts_say (os : target_os) (run : runner) (text : string) (lang : option string)
  : result unit * trace :=
  if String.eqb (trim text) EmptyString then (Err "Text cannot be empty", [])
  else
    let sanitized_text := sanitize text in
    let lang_code := match lang with Some l => l | None => "en-US" end in
    match os with
    | Windows => tts_say_windows run sanitized_text lang_code
    | MacOS => tts_say_macos run sanitized_text lang_code
    | Linux => tts_say_linux run sanitized_text lang_code
    end.


End Tts.

(** ** Port listing ([list_ports], main.rs:160-177) *)
Module Ports.

Record UsbPortInfo := mkUsbPortInfo {
  vid : N;
  pid : N;
  serial_number : option string;
  manufacturer : option string;
  product : option string
}.

Inductive SerialPortType :=
| UsbPort (info : UsbPortInfo)
| PciPort
| BluetoothPort
| UnknownPort.

Record SerialPortInfo := mkSerialPortInfo {
  port_name : string;
  port_type : SerialPortType
}.

Definition describe (p : SerialPortInfo) : string :=
  match port_type p with
  | UsbPort info =>
      String.append (port_name p)
        (String.append " (USB: "
           (String.append (match product info with Some s => s | None => "Unknown" end) ")"))
  | _ => port_name p
  end.

(** [available_ports()] is an input: the ports, or the error text. *)
Definition list_ports (available : result (list SerialPortInfo)) : result (list string) :=
  match available with
  | Err e => Err (String.append "Failed to list ports: " e)
  | Ok ports => Ok (map describe ports)
  end.

End Ports.

(** ** Simulator process management (main.rs:382-571) *)
Module Simulator.
Import Proc.

(** A path as its list of components. *)
Definition path := list string.

Definition join (p : path) (c : string) : path := p ++ [c].

(** [Path::ends_with] for a one-component path. *)
Definition ends_with (p : path) (c : string) : bool :=
  match rev p with
  | last :: _ => String.eqb last c
  | [] => false
  end.

Definition parent (p : path) : option path :=
  match p with
  | [] => None
  | _ => Some (removelast p)
  end.

Fixpoint display_comps (p : path) : string :=
  match p with
  | [] => EmptyString
  | c :: cs => String.append "/" (String.append c (display_comps cs))
  end.

(** [Path::display] of an absolute path. *)
Definition display (p : path) : string := display_comps p.

(** A running child process. *)
Definition Child := nat.

(** What the simulator commands meet outside the process. *)
Record SimEnv := mkSimEnv {
  resource_dir : option path;          (* [path_resolver().resource_dir()] *)
  path_exists : path -> bool;          (* [Path::exists] *)
  current_dir : result path;           (* [std::env::current_dir()] *)
  spawn : string -> list string -> result Child   (* [Command::spawn] *)
}.

Definition project_root (cur : path) : path :=
  if ends_with cur "src-tauri" then
    match parent cur with Some p => p | None => cur end
  else cur.

Definition dev_script (cur : path) : path :=
  join (join (join (project_root cur) "iot-sign-glove") "scripts") "synthetic_asl_simulator.py".

(** The [let script_path = ...] of [start_simulator]. *)
Definition script_path (env : SimEnv) : result path :=
  let from_current_dir :=
    match current_dir env with
    | Err e => Err (String.append "Failed to get current directory: " e)
    | Ok cur => Ok (dev_script cur)
    end in
  match resource_dir env with
  | Some rd =>
      let bundled_script :=
        join (join (join (join rd "_up_") "iot-sign-glove") "scripts")
          "synthetic_asl_simulator.py" in
      if path_exists env bundled_script then Ok bundled_script else from_current_dir
  | None => from_current_dir
  end.

Definition simulator_args (script : path) (gesture : string) : list string :=
  [display script; "--port"; "COM3"; "--gesture"; gesture; "--loop"].

(** [start_simulator]: result, new [SimulatorState.process], and the
    processes spawned. The Windows [creation_flags] do not show here. *)
Definition start_simulator (env : SimEnv) (gesture : string) (process : option Child)
  : result unit * option Child * trace :=
  match process with
  | Some _ => (Err "Simulator is already running. Stop it first.", process, [])
  | None =>
      match script_path env with
      | Err e => (Err e, process, [])
      | Ok script =>
          if negb (path_exists env script) then
            (Err (String.append "Simulator script not found at: " (display script)), process, [])
          else
            let args := simulator_args script gesture in
            match spawn env "python" args with
            | Err e => (Err (String.append "Failed to start simulator: " e), process,
                        [("python", args)])
            | Ok child => (Ok tt, Some child, [("python", args)])
            end
      end
  end.

Inductive sim_action :=
| Kill (c : Child)
| Wait (c : Child)
| Run (cmd : string * list string).

(** [stop_simulator]: the kill/wait results and the Windows [taskkill]
    output are ignored. *)
Definition stop_simulator (os : target_os) (process : option Child)
  : result unit * option Child * list sim_action :=
  let killed := match process with Some c => [Kill c; Wait c] | None => [] end in
  let extra := match os with
               | Windows => [Run ("taskkill", ["/F"; "/IM"; "python.exe"; "/FI";
                                               "WINDOWTITLE eq glove_simulator*"])]
               | _ => []
               end in
  (Ok tt, None, killed ++ extra).

Definition is_simulator_running (process : option Child) : result bool :=
  Ok (match process with Some _ => true | None => false end).

Definition kill_all_simulators (os : target_os) (run : runner) : result string * trace :=
  match os with
  | Windows =>
      let args := ["/F"; "/IM"; "python.exe"] in
      match run "taskkill" args with
      | Err e => (Err (String.append "Failed to kill processes: " e), [("taskkill", args)])
      | Ok out =>
          (Ok (String.append "Killed Python processes:" (String.append Reader.lf (stdout out))),
           [("taskkill", args)])
      end
  | _ =>
      let args := ["-f"; "synthetic_asl_simulator.py"] in
      match run "pkill" args with
      | Err e => (Err (String.append "Failed to kill processes: " e), [("pkill", args)])
      | Ok _ => (Ok "Killed simulator processes", [("pkill", args)])
      end
  end.

End Simulator.

(** ** [debug_buffer] (main.rs:482-539) *)
Module Debug.
Import Proc Recorder Simulator.

Record DebugEnv := mkDebugEnv {
  temp_dir : path;          (* [std::env::temp_dir()] *)
  d_open_ok : bool;         (* creating the debug file succeeds *)
  d_write_ok : bool;        (* [writeln!] calls succeed, the header's and the
                               samples' alike *)
  d_io_error : string;
  d_current_dir : result path
}.

Definition sample_line (s : SensorSample) : string :=
  String.append (Z_to_string (ch0 s)) (String.append ","
    (String.append (Z_to_string (ch1 s)) (String.append ","
      (String.append (Z_to_string (ch2 s)) (String.append ","
        (String.append (Z_to_string (ch3 s)) (String.append ","
          (Z_to_string (ch4 s))))))))).

(** Result, the lines of the debug file ([None]: not created), and the
    commands run. *)
Definition debug_buffer (env : DebugEnv) (run : runner) (samples : list SensorSample)
  : result string * option (list string) * trace :=
  match samples with
  | [] => (Err "No samples in buffer", None, [])
  | _ =>
      let debug_file := join (temp_dir env) "buffer_debug.csv" in
      if negb (d_open_ok env) then
        (Err (String.append "Failed to create debug file: " (d_io_error env)), None, [])
      else if negb (d_write_ok env) then
        (Err (String.append "Failed to write header: " (d_io_error env)), Some [], [])
      else
        let contents := "ch0,ch1,ch2,ch3,ch4" :: map sample_line samples in
        match d_current_dir env with
        | Err e =>
            (Err (String.append "Failed to get current directory: " e), Some contents, [])
        | Ok cur =>
            let script := join (join (join (project_root cur) "iot-sign-glove") "scripts")
                            "analyze_buffer.py" in
            let args := [display script; display debug_file] in
            match run "python" args with
            | Err e =>
                (Err (String.append "Failed to run analysis: " e), Some contents,
                 [("python", args)])
            | Ok out =>
                if negb (status_success out) then
                  (Err (String.append "Analysis failed:"
                          (String.append Reader.lf (String.append (stdout out)
                             (String.append Reader.lf (stderr out))))),
                   Some contents, [("python", args)])
                else (Ok (stdout out), Some contents, [("python", args)])
            end
        end
  end.

End Debug.

(** ** Properties of outputs, used in the statements below *)
Module Observe.
Import RStr Reader.

(** Every double quote is preceded by a backslash. *)
Definition quotes_escaped (t : string) : Prop :=
  forall i, String.get i t = Some Tts.dquote ->
    exists j, i = S j /\ String.get j t = Some Tts.backslash.

Definition is_serial_error (ev : event) : bool :=
  match ev with SerialError _ => true | SensorData _ => false end.

(** A "sensor-data" payload is a non-empty line of 6 comma-separated
    fields; a "serial-error" message reports a read error. *)
Definition well_formed_event (ev : event) : Prop :=
  match ev with
  | SensorData p =>
      p <> EmptyString /\ List.length (split comma p) = 6 /\ has_no_newline p = true
  | SerialError m => exists e, m = String.append "Read error: " e
  end.

Definition sensor_event_ok (ev : event) : Prop :=
  is_serial_error ev = false /\ well_formed_event ev.

End Observe.

(** ** Concrete inputs used by the examples below *)
Module Fixtures.
Import Reader.

Definition com3 : SerialPort :=
  {| sp_name := "COM3"; sp_baud_rate := 115200%N; sp_timeout_ms := 100%N |}.

(** The state [connect_serial] leaves after opening [com3]. *)
Definition connected_state : SerialState :=
  {| port := Some com3; is_connected := true |}.

(** A port opener for which every open succeeds. *)
Definition open_always : Connection.port_opener :=
  fun name baud timeout =>
    Ok {| sp_name := name; sp_baud_rate := baud; sp_timeout_ms := timeout |}.

Definition fs_ok : Recorder.FsEnv :=
  {| Recorder.app_data_dir := Some "/home/u/.local/share/glove";
     Recorder.create_dir_ok := true; Recorder.open_ok := true;
     Recorder.write_ok := true; Recorder.io_error := "";
     Recorder.now_secs := 1700000000%N |}.

Definition calibration5 : Recorder.CalibrationData :=
  {| Recorder.baseline := [50; 60; 70; 80; 90]%Z;
     Recorder.maxbend := [150; 160; 170; 180; 190]%Z |}.

(** Process runners: every command succeeds, or every command runs and
    exits with a failure status. *)
Definition run_ok : Proc.runner :=
  fun _ _ => Ok {| Proc.status_success := true; Proc.stdout := "done";
                   Proc.stderr := EmptyString |}.

Definition run_status_fail : Proc.runner :=
  fun _ _ => Ok {| Proc.status_success := false; Proc.stdout := EmptyString;
                   Proc.stderr := "voice not found" |}.

(** [say -v <voice> ..] fails, [say <text>] succeeds. *)
Definition run_no_voice : Proc.runner :=
  fun _ args => if String.eqb (hd EmptyString args) "-v" then run_status_fail "say" args
                else run_ok "say" args.

(** A development checkout: no resource directory, the process runs in
    [src-tauri], every file exists and spawning gives process 7. *)
Definition sim_env : Simulator.SimEnv :=
  {| Simulator.resource_dir := None;
     Simulator.path_exists := fun _ => true;
     Simulator.current_dir := Ok ["home"; "u"; "glove"; "src-tauri"];
     Simulator.spawn := fun _ _ => Ok 7 |}.

Definition debug_env : Debug.DebugEnv :=
  {| Debug.temp_dir := ["tmp"]; Debug.d_open_ok := true; Debug.d_write_ok := true;
     Debug.d_io_error := EmptyString;
     Debug.d_current_dir := Ok ["home"; "u"; "glove"; "src-tauri"] |}.

Definition sample_a : Recorder.SensorSample := Recorder.mkSample 0 440 612 618 548 528.

End Fixtures.

(** * Proofs *)

(** ** Line extraction *)
Module ReaderFacts.
Import RStr Reader.

Lemma find_app_lf (l rest : string) :
  has_no_newline l = true ->
  find newline (String.append l (String newline rest)) = Some (String.length l).
Proof.
  unfold has_no_newline.
  induction l as [|c l IH]; simpl; intros H.
  - reflexivity.
  - destruct (Ascii.eqb c newline); [discriminate|].
    destruct (find newline l); [discriminate|].
    rewrite IH by reflexivity. reflexivity.
Qed.

Lemma slice_to_app (l t : string) :
  slice_to (String.length l) (String.append l t) = l.
Proof. induction l as [|c l IH]; simpl; [reflexivity|now rewrite IH]. Qed.

Lemma slice_from_app_lf (l t : string) :
  slice_from (String.length l + 1) (String.append l (String newline t)) = t.
Proof. induction l as [|c l IH]; simpl; auto. Qed.

Lemma drain_no_newline (fuel : nat) (r : string) :
  has_no_newline r = true -> drain_lines fuel r = ([], r).
Proof.
  unfold has_no_newline. intros H.
  destruct fuel; simpl; [reflexivity|].
  destruct (find newline r); [discriminate|reflexivity].
Qed.

(** The loop extracts every complete line, in order, and leaves the
    trailing partial line in the buffer. *)
Lemma drain_join (ls : list string) (r : string) (fuel : nat) :
  forallb has_no_newline ls = true -> has_no_newline r = true ->
  List.length ls <= fuel ->
  drain_lines fuel (join_lines ls r) = (flat_map process_line ls, r).
Proof.
  revert fuel.
  induction ls as [|l ls IH]; intros fuel Hls Hr Hf; simpl in *.
  - now apply drain_no_newline.
  - apply andb_true_iff in Hls as [Hl Hls].
    destruct fuel as [|fuel]; [lia|]. simpl.
    unfold lf; simpl String.append at 2.
    rewrite (find_app_lf l _ Hl).
    rewrite slice_to_app, slice_from_app_lf.
    rewrite (IH fuel Hls Hr ltac:(lia)). reflexivity.
Qed.

Lemma append_length (s t : string) :
  String.length (String.append s t) = String.length s + String.length t.
Proof. induction s as [|c s IH]; simpl; congruence. Qed.

Lemma append_assoc (s t u : string) :
  String.append (String.append s t) u = String.append s (String.append t u).
Proof. induction s as [|c s IH]; simpl; congruence. Qed.

Lemma append_empty_r (s : string) : String.append s EmptyString = s.
Proof. induction s as [|c s IH]; simpl; congruence. Qed.

Lemma has_no_newline_app (s t : string) :
  has_no_newline (String.append s t) = has_no_newline s && has_no_newline t.
Proof.
  unfold has_no_newline.
  induction s as [|c s IH]; [reflexivity|].
  cbn [String.append find].
  destruct (Ascii.eqb c newline); [reflexivity|].
  destruct (find newline s), (find newline (String.append s t)), (find newline t);
    simpl in *; congruence.
Qed.

Lemma join_lines_length (ls : list string) (r : string) :
  List.length ls <= String.length (join_lines ls r).
Proof.
  induction ls as [|l ls IH]; simpl; [lia|].
  rewrite append_length. simpl. lia.
Qed.

Lemma process_complete_lines_join (ls : list string) (r : string) :
  forallb has_no_newline ls = true -> has_no_newline r = true ->
  process_complete_lines (join_lines ls r) = (flat_map process_line ls, r).
Proof.
  intros. apply drain_join; auto. apply join_lines_length.
Qed.

(** One read of a non-empty chunk while connected: the lines completed by
    the chunk are processed in order and the partial line is kept. *)
Lemma worker_iteration_chunk (st : SerialState) (p : SerialPort) (w : worker)
    (chunk : string) (ls : list string) (r : string) :
  is_connected st = true -> port st = Some p -> chunk <> EmptyString ->
  String.append (buffer w) chunk = join_lines ls r ->
  forallb has_no_newline ls = true -> has_no_newline r = true ->
  worker_iteration st w (ReadOk chunk) =
    ({| buffer := r; emitted := emitted w ++ flat_map process_line ls |}, Continue).
Proof.
  intros Hc Hp Hne Hj Hls Hr.
  unfold worker_iteration. rewrite Hc, Hp. simpl.
  destruct (String.eqb_spec chunk EmptyString) as [E|_]; [contradiction|].
  rewrite Hj, process_complete_lines_join by assumption. reflexivity.
Qed.

End ReaderFacts.

(** ** Claims on the reader *)
Module ReaderClaims.
Import RStr Reader ReaderFacts Fixtures.

Lemma join_single (x : string) :
  join_lines [x] EmptyString = String.append x lf.
Proof. reflexivity. Qed.

Lemma line_chunk_nonempty (d : string) : String.append d lf <> EmptyString.
Proof. destruct d; discriminate. Qed.

(** C1 (amended): a line-feed-terminated line that, once trimmed, is
    non-empty and splits on commas into exactly 6 fields yields exactly
    one "sensor-data" event, whose payload is the trimmed line itself;
    the buffer is left empty and the loop continues. *)
Theorem reader_emits_six_field_line (st : SerialState) (p : SerialPort)
    (w : worker) (d : string) :
  is_connected st = true -> port st = Some p ->
  has_no_newline (String.append (buffer w) d) = true ->
  trim (String.append (buffer w) d) <> EmptyString ->
  List.length (split comma (trim (String.append (buffer w) d))) = 6 ->
  worker_iteration st w (ReadOk (String.append d lf)) =
    ({| buffer := EmptyString;
        emitted := emitted w ++ [SensorData (trim (String.append (buffer w) d))] |},
     Continue).
Proof.
  intros Hc Hp Hn Hne H6.
  rewrite (worker_iteration_chunk st p w _ [String.append (buffer w) d] EmptyString);
    auto using line_chunk_nonempty.
  - simpl. unfold process_line.
    destruct (String.eqb_spec (trim (String.append (buffer w) d)) EmptyString);
      [contradiction|].
    rewrite H6. reflexivity.
  - now rewrite join_single, append_assoc.
  - simpl. now rewrite Hn.
Qed.

Lemma reader_emits_six_field_line_witness :
  worker_iteration connected_state initial_worker
    (ReadOk (String.append "0,440,612,618,548,528" lf)) =
    ({| buffer := EmptyString; emitted := [SensorData "0,440,612,618,548,528"] |},
     Continue).
Proof.
  apply (reader_emits_six_field_line connected_state com3 initial_worker
           "0,440,612,618,548,528"); try reflexivity; discriminate.
Defined.

(** C1 counterexample: the 5-field line of the spec's scenario produces no
    event at all. *)
Lemma reader_drops_five_field_line :
  worker_iteration connected_state initial_worker
    (ReadOk (String.append "440,612,618,548,528" lf)) = (initial_worker, Continue).
Proof. vm_compute. reflexivity. Qed.

(** C2 (amended): a line-feed-terminated line whose trimmed text is empty
    or does not split on commas into exactly 6 fields produces no event;
    it is dropped, the buffer is left empty and the loop goes on. *)
Theorem reader_discards_other_lines (st : SerialState) (p : SerialPort)
    (w : worker) (d : string) :
  is_connected st = true -> port st = Some p ->
  has_no_newline (String.append (buffer w) d) = true ->
  (trim (String.append (buffer w) d) = EmptyString \/
   List.length (split comma (trim (String.append (buffer w) d))) <> 6) ->
  worker_iteration st w (ReadOk (String.append d lf)) =
    ({| buffer := EmptyString; emitted := emitted w |}, Continue).
Proof.
  intros Hc Hp Hn Hbad.
  rewrite (worker_iteration_chunk st p w _ [String.append (buffer w) d] EmptyString);
    auto using line_chunk_nonempty.
  - simpl. unfold process_line.
    destruct (String.eqb_spec (trim (String.append (buffer w) d)) EmptyString)
      as [E|E]; [now rewrite app_nil_r|].
    destruct Hbad as [Hbad|Hbad]; [contradiction|].
    apply Nat.eqb_neq in Hbad. rewrite Hbad. now rewrite app_nil_r.
  - now rewrite join_single, append_assoc.
  - simpl. now rewrite Hn.
Qed.

Lemma reader_discards_other_lines_witness :
  worker_iteration connected_state initial_worker
    (ReadOk (String.append "440,612,618,548,528" lf)) =
    ({| buffer := EmptyString; emitted := [] |}, Continue).
Proof.
  apply (reader_discards_other_lines connected_state com3 initial_worker
           "440,612,618,548,528"); try reflexivity.
  right. vm_compute. discriminate.
Defined.

(** C2 counterexample: fields are never parsed as integers, so a 6-field
    line of letters is emitted. *)
Lemma reader_emits_non_integer_fields :
  worker_iteration connected_state initial_worker
    (ReadOk (String.append "a,b,c,d,e,f" lf)) =
    ({| buffer := EmptyString; emitted := [SensorData "a,b,c,d,e,f"] |}, Continue).
Proof. vm_compute. reflexivity. Qed.

(** C7 (amended): each non-empty chunk is appended to the buffer, every
    complete line is processed in order and the trailing partial line is
    kept; a line split over two reads is processed once, as the
    concatenation of its parts. The spec's 5-field example is dropped as
    every 5-field line is; its 6-field counterpart yields one event. *)
Theorem reader_reassembles_split_lines (st : SerialState) (p : SerialPort) :
  is_connected st = true -> port st = Some p ->
  (forall (w : worker) (chunk : string) (ls : list string) (r : string),
      chunk <> EmptyString ->
      String.append (buffer w) chunk = join_lines ls r ->
      forallb has_no_newline ls = true -> has_no_newline r = true ->
      worker_iteration st w (ReadOk chunk) =
        ({| buffer := r; emitted := emitted w ++ flat_map process_line ls |}, Continue)) /\
  (forall (w : worker) (d1 d2 : string),
      d1 <> EmptyString ->
      has_no_newline (String.append (buffer w) (String.append d1 d2)) = true ->
      run_worker st w [ReadOk d1; ReadOk (String.append d2 lf)] =
        ({| buffer := EmptyString;
            emitted := emitted w ++ process_line
                         (String.append (buffer w) (String.append d1 d2)) |},
         Continue)) /\
  run_worker connected_state initial_worker
    [ReadOk "0,440,612,"; ReadOk (String.append "618,548,528" lf)] =
    ({| buffer := EmptyString; emitted := [SensorData "0,440,612,618,548,528"] |},
     Continue).
Proof.
  intros Hc Hp. split; [|split].
  - intros. eapply worker_iteration_chunk; eauto.
  - intros w d1 d2 Hd1 Hn.
    rewrite <- append_assoc, has_no_newline_app in Hn.
    apply andb_true_iff in Hn as [Hn1 Hn2].
    simpl.
    rewrite (worker_iteration_chunk st p w d1 [] (String.append (buffer w) d1));
      auto.
    rewrite (worker_iteration_chunk st p _ _
               [String.append (String.append (buffer w) d1) d2] EmptyString);
      simpl; auto using line_chunk_nonempty.
    all: first [ now rewrite !app_nil_r, append_assoc
               | now rewrite !append_assoc
               | now rewrite has_no_newline_app, Hn1, Hn2 ].
  - vm_compute. reflexivity.
Qed.

Lemma reader_reassembles_split_lines_witness :
  run_worker connected_state initial_worker
    [ReadOk "0,440,612,"; ReadOk (String.append "618,548,528" lf)] =
    ({| buffer := EmptyString; emitted := [SensorData "0,440,612,618,548,528"] |},
     Continue).
Proof.
  destruct (reader_reassembles_split_lines connected_state com3 eq_refl eq_refl)
    as [_ [_ H]].
  exact H.
Defined.

(** C7 counterexample: the spec's split 5-field frame yields no event. *)
Lemma reader_split_five_field_frame_dropped :
  run_worker connected_state initial_worker
    [ReadOk "440,612,"; ReadOk (String.append "618,548,528" lf)] =
    ({| buffer := EmptyString; emitted := [] |}, Continue).
Proof. vm_compute. reflexivity. Qed.

End ReaderClaims.

(** ** Claims on the connection commands and the task's read errors *)
Module ConnectionClaims.
Import Reader Connection App Fixtures.

(** C5 (amended): while connected, a read timeout leaves everything as it
    is and the task keeps looping; any other read error emits exactly one
    "serial-error" event and ends the task's loop, while the shared state
    is left as it was: [is_connected] stays [true] and the port stays
    stored until [disconnect_serial] is called. *)
Theorem task_read_outcomes (a : app) (p : SerialPort) (w : worker) :
  is_connected (shared a) = true -> port (shared a) = Some p ->
  task a = Some (w, Continue) ->
  app_step a (TaskIteration ReadTimedOut) = a /\
  forall e : string,
    let a' := app_step a (TaskIteration (ReadFailed e)) in
    a' = {| shared := shared a;
            task := Some ({| buffer := buffer w;
                             emitted := emitted w ++
                               [SerialError (String.append "Read error: " e)] |},
                          Break) |} /\
    is_serial_connected (shared a') = Ok true /\
    (forall r, app_step a' (TaskIteration r) = a').
Proof.
  intros Hc Hp Ht. destruct a as [st t]; simpl in *; subst t.
  unfold app_step, worker_iteration. rewrite Hc, Hp. simpl.
  split; [reflexivity|].
  intros e. repeat split. unfold is_serial_connected. now rewrite Hc.
Qed.

Lemma task_read_outcomes_witness :
  app_step {| shared := connected_state; task := Some (initial_worker, Continue) |}
    (TaskIteration ReadTimedOut) =
    {| shared := connected_state; task := Some (initial_worker, Continue) |}.
Proof.
  apply (task_read_outcomes
           {| shared := connected_state; task := Some (initial_worker, Continue) |}
           com3 initial_worker); reflexivity.
Defined.

(** C5 counterexample: after a failed read the task has stopped but the
    connection still reports connected (and a new connect is refused). *)
Lemma read_error_leaves_connected :
  let a := run_app initial_app
             [DoConnect open_always "COM3" 115200%N; TaskIteration (ReadFailed "Broken pipe")] in
  a = {| shared := connected_state;
         task := Some ({| buffer := EmptyString;
                          emitted := [SerialError "Read error: Broken pipe"] |}, Break) |} /\
  is_serial_connected (shared a) = Ok true /\
  fst (fst (connect_serial open_always "COM3" 115200%N (shared a))) =
    Err "Already connected to a port".
Proof. vm_compute. repeat split. Qed.

(** C6: [connect_serial] refuses with "Already connected to a port"
    whenever [is_connected] is set, changing nothing and spawning no task;
    when it succeeds it stores the opened port, sets [is_connected], so
    the reading flag polled by the task is set, and spawns the reader task
    in its initial state. *)
Theorem connect_serial_policy (open : port_opener) (name : string) (baud : N)
    (st : SerialState) :
  (is_connected st = true ->
   connect_serial open name baud st = (Err "Already connected to a port", st, None)) /\
  (forall st' w,
     connect_serial open name baud st = (Ok tt, st', w) ->
     is_connected st' = true /\ reading_active st' = true /\
     (exists p, open name baud 100%N = Ok p /\ port st' = Some p) /\
     w = Some initial_worker).
Proof.
  unfold connect_serial, reading_active. split.
  - intros H. now rewrite H.
  - intros st' w. destruct (is_connected st); [discriminate|].
    destruct (open name baud 100%N) as [p|e] eqn:Ho; [|discriminate].
    intros E. inversion E; subst. simpl. repeat split. eauto.
Qed.

Lemma connect_serial_policy_witness :
  connect_serial open_always "COM4" 9600%N connected_state =
    (Err "Already connected to a port", connected_state, None).
Proof.
  apply (proj1 (connect_serial_policy open_always "COM4" 9600%N connected_state)).
  reflexivity.
Defined.

Lemma reachable_flag_port (st : SerialState) :
  reachable st -> is_connected st = false -> port st = None.
Proof.
  induction 1 as [|open name baud st r st' w Hr IH E|st r st' Hr IH E]; intros Hf.
  - reflexivity.
  - unfold connect_serial in E.
    destruct (is_connected st) eqn:Hc.
    + inversion E; subst. congruence.
    + destruct (open name baud 100%N); inversion E; subst; simpl in *; auto.
      discriminate.
  - unfold disconnect_serial in E. inversion E; subst. reflexivity.
Qed.

(** C8: [disconnect_serial] always returns [Ok], leaving the port dropped
    and [is_connected] (the flag the task polls) cleared; applying it
    again changes nothing, and on a disconnected state reached through
    the commands it changes nothing either. *)
Theorem disconnect_serial_idempotent (st : SerialState) :
  disconnect_serial st = (Ok tt, {| port := None; is_connected := false |}) /\
  reading_active (snd (disconnect_serial st)) = false /\
  disconnect_serial (snd (disconnect_serial st)) = disconnect_serial st /\
  (reachable st -> is_connected st = false -> disconnect_serial st = (Ok tt, st)).
Proof.
  repeat split.
  intros Hr Hf. pose proof (reachable_flag_port st Hr Hf) as Hp.
  destruct st as [p c]; simpl in *; subst. reflexivity.
Qed.

Lemma disconnect_serial_idempotent_witness :
  disconnect_serial initial_serial_state = (Ok tt, initial_serial_state).
Proof.
  apply (disconnect_serial_idempotent initial_serial_state); [constructor|reflexivity].
Defined.

End ConnectionClaims.

(** ** Normalization and recording *)
Module RecorderFacts.
Import Recorder NormSpec.
Local Open Scope Q_scope.

Lemma inject_Z_sub (x y : Z) : inject_Z x - inject_Z y = inject_Z (x - y).
Proof. unfold Qminus, Qplus, inject_Z. simpl. f_equal. lia. Qed.

Lemma Qle_bool_inject_Z (z : Z) : Qle_bool (inject_Z z) 0 = Z.leb z 0.
Proof. unfold Qle_bool. simpl. now rewrite Z.mul_1_r. Qed.

(** [norm_channel] with its [f64] operations gathered into integer
    differences. *)
Lemma norm_channel_eq (raw b m : Z) :
  norm_channel raw b m =
    if Z.leb (m - b) 0 then 0
    else Qmin (Qmax (inject_Z (raw - b) / inject_Z (m - b)) 0) 1.
Proof.
  unfold norm_channel. rewrite !inject_Z_sub, Qle_bool_inject_Z.
  now destruct (Z.leb (m - b) 0).
Qed.

Lemma clamp_min_max (q : Q) : Qmin (Qmax q 0) 1 == clamp q 0 1.
Proof.
  unfold clamp.
  destruct (Qlt_le_dec q 0) as [H|H].
  - rewrite (Q.max_r q 0), (Q.min_l q 1), (Q.max_l 0 q), (Q.min_l 0 1);
      try reflexivity; lra.
  - destruct (Qlt_le_dec 1 q) as [H'|H'].
    + rewrite (Q.max_l q 0), (Q.min_r q 1), (Q.max_r 0 1); try reflexivity; lra.
    + rewrite (Q.max_l q 0), (Q.min_l q 1), (Q.max_r 0 q); try reflexivity; lra.
Qed.

Lemma norm_channel_refines (raw b m : Z) :
  norm_channel raw b m == spec_normalized raw b m.
Proof.
  rewrite norm_channel_eq. unfold spec_normalized.
  destruct (Z.leb (m - b) 0); [reflexivity|apply clamp_min_max].
Qed.

Lemma norm_channel_bounds (raw b m : Z) :
  0 <= norm_channel raw b m <= 1.
Proof.
  rewrite norm_channel_eq. destruct (Z.leb (m - b) 0); [lra|].
  split.
  - apply Q.min_glb; [apply Q.le_max_r|lra].
  - apply Q.le_min_r.
Qed.

Lemma norm_channel_degenerate (raw b m : Z) :
  (m <= b)%Z -> norm_channel raw b m = 0.
Proof.
  intros H. rewrite norm_channel_eq.
  replace (Z.leb (m - b) 0) with true; [reflexivity|].
  symmetry. apply Z.leb_le. lia.
Qed.

Lemma norm_channel_at_baseline (b m : Z) : norm_channel b b m == 0.
Proof.
  rewrite norm_channel_eq. destruct (Z.leb (m - b) 0); [reflexivity|].
  rewrite Z.sub_diag. unfold Qdiv.
  setoid_replace (inject_Z 0 * / inject_Z (m - b)) with 0 by apply Qmult_0_l.
  reflexivity.
Qed.

Lemma norm_channel_at_maxbend (b m : Z) :
  (b < m)%Z -> norm_channel m b m == 1.
Proof.
  intros H. rewrite norm_channel_eq.
  replace (Z.leb (m - b) 0) with false by (symmetry; apply Z.leb_gt; lia).
  unfold Qdiv.
  setoid_replace (inject_Z (m - b) * / inject_Z (m - b)) with 1.
  - reflexivity.
  - apply Qmult_inv_r. unfold Qeq. simpl. lia.
Qed.

End RecorderFacts.

(** ** Claims on [save_recording] *)
Module RecorderClaims.
Import Recorder NormSpec RecorderFacts Fixtures.

Lemma sample_norms_ok (cal : CalibrationData) (smp : SensorSample) :
  5 <= List.length (baseline cal) -> 5 <= List.length (maxbend cal) ->
  exists norm, sample_norms cal smp = Some norm /\
    forall i b m, i < 5 -> nth_error (baseline cal) i = Some b ->
      nth_error (maxbend cal) i = Some m ->
      nth_error norm i = Some (norm_channel (nth i (raw_values smp) 0%Z) b m).
Proof.
  destruct cal as [bs ms]; simpl.
  destruct bs as [|b0 [|b1 [|b2 [|b3 [|b4 bs]]]]]; simpl; try lia.
  destruct ms as [|m0 [|m1 [|m2 [|m3 [|m4 ms]]]]]; simpl; try lia.
  intros _ _. eexists. split; [reflexivity|].
  intros i b m Hi Hb Hm.
  do 5 (destruct i as [|i]; [simpl in *; congruence|]). lia.
Qed.

Lemma write_rows_ok (env : FsEnv) (u ss g : string) (cal : CalibrationData)
    (samples : list SensorSample) (written : list csv_line) (fp : string) :
  5 <= List.length (baseline cal) -> 5 <= List.length (maxbend cal) ->
  exists rows,
    write_rows env u ss g cal samples written fp = (Returned (Ok fp), Some (written ++ rows)) /\
    Forall2 (fun smp ln => exists row, ln = DataLine row /\
      row_raw row = raw_values smp /\
      forall i b m, i < 5 -> nth_error (baseline cal) i = Some b ->
        nth_error (maxbend cal) i = Some m ->
        nth_error (row_norm row) i = Some (norm_channel (nth i (raw_values smp) 0%Z) b m))
      samples rows.
Proof.
  intros Hb Hm. revert written.
  induction samples as [|smp rest IH]; intros written; simpl.
  - exists []. rewrite app_nil_r. split; [reflexivity|constructor].
  - destruct (sample_norms_ok cal smp Hb Hm) as [norm [Hn Hspec]].
    rewrite Hn.
    match goal with
    | |- context [write_rows _ _ _ _ _ rest ?w _] => destruct (IH w) as [rows [Hw Hf]]
    end.
    rewrite Hw. eexists. split.
    + rewrite <- app_assoc. reflexivity.
    + constructor; [|exact Hf]. eexists. split; [reflexivity|]. simpl. auto.
Qed.

(** C3 (code bug): [save_recording] does not validate its input. With no
    samples it returns [Ok] and leaves a header-only file on disk; with a
    calibration of 3 entries it creates the file, writes the header and
    then panics on [calibration.baseline[3]]. *)
Theorem save_recording_accepts_invalid_input :
  save_recording fs_ok [] "A" "u1" "s1" calibration5 =
    (Returned (Ok "/home/u/.local/share/glove/recordings/u1_s1_A_1700000000.csv"),
     Some [HeaderLine csv_header]) /\
  save_recording fs_ok [mkSample 0 80 160 70 80 90] "A" "u1" "s1"
    {| baseline := [50; 60; 70]%Z; maxbend := [150; 160; 170]%Z |} =
    (Panicked "index out of bounds", Some [HeaderLine csv_header]).
Proof. split; vm_compute; reflexivity. Qed.

(** C4: when the file system calls succeed and both calibration vectors
    have at least 5 entries, [save_recording] returns [Ok] (degenerate
    ranges included) and writes one row per sample after the header; the
    normalized value of channel [i] is, up to [Q] equality,
    [clamp((raw - baseline) / (maxbend - baseline), 0, 1)] (and [0] when
    [maxbend - baseline <= 0]): it lies in [[0, 1]], is [0] at
    [raw = baseline], [1] at [raw = maxbend] when [baseline < maxbend],
    and exactly [0.0] when [maxbend <= baseline]. *)
Theorem save_recording_normalization (env : FsEnv) (samples : list SensorSample)
    (gesture user_id session_id : string) (cal : CalibrationData) (dir : string) :
  app_data_dir env = Some dir -> create_dir_ok env = true ->
  open_ok env = true -> write_ok env = true ->
  5 <= List.length (baseline cal) -> 5 <= List.length (maxbend cal) ->
  exists path lines,
    save_recording env samples gesture user_id session_id cal =
      (Returned (Ok path), Some (HeaderLine csv_header :: lines)) /\
    Forall2 (fun smp ln => exists row, ln = DataLine row /\
      row_raw row = raw_values smp /\
      forall i b m, i < 5 -> nth_error (baseline cal) i = Some b ->
        nth_error (maxbend cal) i = Some m ->
        let raw := nth i (raw_values smp) 0%Z in
        exists v, nth_error (row_norm row) i = Some v /\
          (v == spec_normalized raw b m)%Q /\
          (0 <= v <= 1)%Q /\
          (raw = b -> v == 0)%Q /\
          (raw = m -> (b < m)%Z -> v == 1)%Q /\
          ((m <= b)%Z -> v = 0%Q))
      samples lines.
Proof.
  intros Hd Hc Ho Hw Hb Hm.
  unfold save_recording. rewrite Hd, Hc, Ho, Hw. simpl.
  match goal with
  | |- context [write_rows _ _ _ _ _ _ ?w ?fp] =>
      destruct (write_rows_ok env user_id session_id gesture cal samples w fp Hb Hm)
        as [rows [Hwr Hf]]
  end.
  rewrite Hwr. do 2 eexists. split; [reflexivity|].
  eapply Forall2_impl; [|exact Hf].
  intros smp ln [row [Hl [Hr Hn]]].
  exists row. split; [exact Hl|]. split; [exact Hr|].
  intros i b m Hi Hbi Hmi.
  exists (norm_channel (nth i (raw_values smp) 0%Z) b m). split; [now apply Hn|].
  split; [apply norm_channel_refines|].
  split; [apply norm_channel_bounds|].
  split; [intros E; subst b; apply norm_channel_at_baseline|].
  split; [intros E Hlt; subst m; now apply norm_channel_at_maxbend|].
  apply norm_channel_degenerate.
Qed.

Lemma save_recording_normalization_witness :
  exists path lines,
    save_recording fs_ok [mkSample 0 80 160 70 80 90] "A" "u1" "s1" calibration5 =
      (Returned (Ok path), Some (HeaderLine csv_header :: lines)) /\
    Forall2 (fun smp ln => exists row, ln = DataLine row /\
      row_raw row = raw_values smp /\
      forall i b m, i < 5 -> nth_error (baseline calibration5) i = Some b ->
        nth_error (maxbend calibration5) i = Some m ->
        let raw := nth i (raw_values smp) 0%Z in
        exists v, nth_error (row_norm row) i = Some v /\
          (v == spec_normalized raw b m)%Q /\
          (0 <= v <= 1)%Q /\
          (raw = b -> v == 0)%Q /\
          (raw = m -> (b < m)%Z -> v == 1)%Q /\
          ((m <= b)%Z -> v = 0%Q))
      [mkSample 0 80 160 70 80 90] lines.
Proof.
  apply (save_recording_normalization fs_ok _ "A" "u1" "s1" calibration5
           "/home/u/.local/share/glove"); try reflexivity; simpl; lia.
Defined.

End RecorderClaims.

(** ** Claims on pause/resume and on [predict_gesture] *)
Module OtherClaims.
Import PauseSpec Predict Recorder Fixtures.

(** C9: [pause] and [resume] never fail and keep the device handle and the
    connection; while connected they set [reading_active] to [false] and
    [true] respectively, so a second call in a row changes nothing; while
    disconnected both leave the state as it is. *)
Theorem pause_resume_idempotent (c : conn) :
  fst (pause c) = Ok tt /\ fst (resume c) = Ok tt /\
  c_port (snd (pause c)) = c_port c /\ c_port (snd (resume c)) = c_port c /\
  c_connected (snd (pause c)) = c_connected c /\
  c_connected (snd (resume c)) = c_connected c /\
  (c_connected c = true ->
     c_reading_active (snd (pause c)) = false /\
     c_reading_active (snd (resume c)) = true) /\
  pause (snd (pause c)) = (Ok tt, snd (pause c)) /\
  resume (snd (resume c)) = (Ok tt, snd (resume c)) /\
  (c_connected c = false -> pause c = (Ok tt, c) /\ resume c = (Ok tt, c)).
Proof.
  destruct c as [p [|] r]; unfold pause, resume; simpl;
    repeat split; discriminate.
Qed.

Lemma pause_resume_idempotent_witness :
  pause {| c_port := None; c_connected := false; c_reading_active := false |} =
    (Ok tt, {| c_port := None; c_connected := false; c_reading_active := false |}).
Proof.
  apply (pause_resume_idempotent
           {| c_port := None; c_connected := false; c_reading_active := false |}).
  reflexivity.
Defined.

(** C10: with fewer than 50 samples (none included) [predict_gesture]
    returns an error and sends no request. *)
Theorem predict_gesture_needs_50_samples
    (send : ApiRequest -> result (bool * string))
    (parse : string -> option ApiResponse) (samples : list SensorSample) :
  List.length samples < 50 ->
  exists msg, predict_gesture send parse samples = (Err msg, []).
Proof.
  intros H. unfold predict_gesture.
  destruct (Nat.eqb (List.length samples) 0); [eauto|].
  apply Nat.ltb_lt in H. rewrite H. eauto.
Qed.

Lemma predict_gesture_needs_50_samples_witness :
  exists msg,
    predict_gesture (fun _ => Err "unreachable") (fun _ => None)
      (repeat (mkSample 0 440 612 618 548 528) 49) = (Err msg, []).
Proof.
  apply predict_gesture_needs_50_samples. simpl. lia.
Defined.

End OtherClaims.

(** ** Text-to-speech *)
Module TtsFacts.
Import RStr Proc Tts Observe.

(** One character of [sanitize]. *)
Lemma sanitize_cons (c : ascii) (s : string) :
  sanitize (String c s) =
    if Ascii.eqb c dquote then String backslash (String dquote (sanitize s))
    else if Ascii.eqb c backquote then sanitize s
    else String c (sanitize s).
Proof.
  unfold sanitize. cbn [replace_char].
  destruct (Ascii.eqb c dquote) eqn:Hd.
  - apply Ascii.eqb_eq in Hd; subst. reflexivity.
  - cbn [replace_char]. destruct (Ascii.eqb c backquote); reflexivity.
Qed.

Lemma quotes_escaped_cons (c : ascii) (t : string) :
  c <> dquote -> quotes_escaped t -> quotes_escaped (String c t).
Proof.
  intros Hc Ht [|i] Hi; simpl in Hi.
  - congruence.
  - destruct (Ht i Hi) as [j [-> Hj]]. exists (S j). auto.
Qed.

Lemma quotes_escaped_pair (t : string) :
  quotes_escaped t -> quotes_escaped (String backslash (String dquote t)).
Proof.
  intros Ht [|[|i]] Hi; simpl in Hi.
  - discriminate.
  - exists 0. auto.
  - destruct (Ht i Hi) as [j [-> Hj]]. exists (S (S j)). auto.
Qed.


Lemma tts_os_trace_nonempty (os : target_os) (run : runner) (t l : string) :
  snd (match os with
       | Windows => tts_say_windows run t l
       | MacOS => tts_say_macos run t l
       | Linux => tts_say_linux run t l
       end) <> [].
Proof.
  destruct os; simpl.
  - unfold tts_say_windows. destruct (run _ _) as [o|e]; simpl;
      [destruct (status_success o)|]; discriminate.
  - unfold tts_say_macos. destruct (run "say" _) as [o|e]; simpl; [|discriminate].
    destruct (status_success o); simpl; [discriminate|].
    destruct (run "say" [t]) as [o2|e2]; simpl; [destruct (status_success o2)|];
      discriminate.
  - unfold tts_say_linux. destruct (run _ _) as [o|e]; simpl;
      [destruct (status_success o)|]; discriminate.
Qed.

End TtsFacts.

Module TtsExtras.
Import RStr Proc Tts Observe TtsFacts Fixtures.

(** [tts_say] refuses a text that is empty once trimmed, on every
    platform, with "Text cannot be empty" and without running any command;
    any other text runs at least one command. *)
Theorem tts_say_blank_text (os : target_os) (run : runner) (text : string)
    (lang : option string) :
  (trim text = EmptyString -> tts_say os run text lang = (Err "Text cannot be empty", [])) /\
  (trim text <> EmptyString -> snd (tts_say os run text lang) <> []).
Proof.
  unfold tts_say. split; intros H.
  - now rewrite H.
  - destruct (String.eqb_spec (trim text) EmptyString) as [E|_]; [contradiction|].
    apply tts_os_trace_nonempty.
Qed.

Lemma tts_say_blank_text_witness :
  tts_say Linux run_ok "  " None = (Err "Text cannot be empty", []).
Proof. apply (proj1 (tts_say_blank_text Linux run_ok "  " None)). reflexivity. Defined.

(** The sanitized text holds no backquote, every double quote in it is
    preceded by a backslash, and a text with neither character is passed
    on unchanged. *)
Theorem sanitize_escapes (text : string) :
  (forall i, String.get i (sanitize text) <> Some backquote) /\
  quotes_escaped (sanitize text) /\
  (find dquote text = None -> find backquote text = None -> sanitize text = text).
Proof.
  induction text as [|c s [IH1 [IH2 IH3]]].
  - split; [intros [|i]; discriminate|]. split; [|reflexivity].
    intros [|i]; discriminate.
  - rewrite sanitize_cons.
    destruct (Ascii.eqb c dquote) eqn:Hd; [|destruct (Ascii.eqb c backquote) eqn:Hb].
    + apply Ascii.eqb_eq in Hd; subst. split; [|split].
      * intros [|[|i]]; simpl; [discriminate|discriminate|apply IH1].
      * now apply quotes_escaped_pair.
      * simpl. intros E. discriminate.
    + split; [exact IH1|split; [exact IH2|]].
      simpl. rewrite Hd, Hb. discriminate.
    + apply Ascii.eqb_neq in Hd. apply Ascii.eqb_neq in Hb.
      split; [|split].
      * intros [|i]; simpl; [congruence|apply IH1].
      * now apply quotes_escaped_cons.
      * simpl. rewrite (proj2 (Ascii.eqb_neq _ _) Hd), (proj2 (Ascii.eqb_neq _ _) Hb).
        intros H1 H2. rewrite IH3; [reflexivity| |];
          [destruct (find dquote s)|destruct (find backquote s)]; easy.
Qed.


(** Language selection: Turkish exactly for "tr" and "tr-TR" on every
    platform; otherwise English, British English only for "en-GB" on
    Windows and macOS. With no language given [tts_say] uses "en-US". *)
Theorem tts_language_mapping (l : string) :
  (windows_culture l = "tr-TR" <-> l = "tr-TR" \/ l = "tr") /\
  (macos_voice l = "Yelda" <-> l = "tr-TR" \/ l = "tr") /\
  (linux_lang l = "tr" <-> l = "tr-TR" \/ l = "tr") /\
  (windows_culture l = "en-GB" <-> l = "en-GB") /\
  (macos_voice l = "Daniel" <-> l = "en-GB") /\
  In (windows_culture l) ["tr-TR"; "en-US"; "en-GB"] /\
  In (macos_voice l) ["Yelda"; "Samantha"; "Daniel"] /\
  In (linux_lang l) ["tr"; "en"].
Proof.
  unfold windows_culture, macos_voice, linux_lang.
  destruct (String.eqb_spec l "tr-TR") as [->|H1]; [simpl; intuition discriminate|].
  destruct (String.eqb_spec l "tr") as [->|H2]; [simpl; intuition discriminate|].
  destruct (String.eqb_spec l "en-US") as [->|H3]; [simpl; intuition discriminate|].
  destruct (String.eqb_spec l "en") as [->|H4]; [simpl; intuition discriminate|].
  destruct (String.eqb_spec l "en-GB") as [->|H5]; simpl; intuition discriminate.
Qed.

(** On Windows a non-blank text runs exactly one command, [powershell]
    with the generated script, which holds the culture code and the
    sanitized text quoted for PowerShell; the result is [Ok] exactly when
    the command runs and exits successfully. *)
Theorem tts_windows_command (run : runner) (text : string) (lang : option string) :
  trim text <> EmptyString ->
  let args := ["-NoProfile"; "-NonInteractive"; "-Command";
               ps_script (windows_culture (match lang with Some l => l | None => "en-US" end))
                 (sanitize text)] in
  snd (tts_say Windows run text lang) = [("powershell", args)] /\
  (fst (tts_say Windows run text lang) = Ok tt <->
     exists out, run "powershell" args = Ok out /\ status_success out = true).
Proof.
  intros H args. unfold tts_say.
  destruct (String.eqb_spec (trim text) EmptyString) as [E|_]; [contradiction|].
  unfold tts_say_windows. fold args.
  destruct (run "powershell" args) as [o|e]; simpl.
  - destruct (status_success o) eqn:Hs; simpl; split; try reflexivity; split; eauto.
    + intros E; discriminate.
    + intros [o' [E Ho]]. inversion E; subst. congruence.
  - split; [reflexivity|]. split; [discriminate|]. intros [o' [E _]]; discriminate.
Qed.

Lemma tts_windows_command_witness :
  snd (tts_say Windows run_ok "hi" None) =
    [("powershell", ["-NoProfile"; "-NonInteractive"; "-Command";
                     ps_script "en-US" "hi"])].
Proof. apply (tts_windows_command run_ok "hi" None). discriminate. Defined.

(** On Linux a non-blank text runs exactly one command,
    [spd-say -l <lang> <sanitized text>]; the result is [Ok] exactly when it
    runs and exits successfully. *)
Theorem tts_linux_command (run : runner) (text : string) (lang : option string) :
  trim text <> EmptyString ->
  let args := ["-l"; linux_lang (match lang with Some l => l | None => "en-US" end);
               sanitize text] in
  snd (tts_say Linux run text lang) = [("spd-say", args)] /\
  (fst (tts_say Linux run text lang) = Ok tt <->
     exists out, run "spd-say" args = Ok out /\ status_success out = true).
Proof.
  intros H args. unfold tts_say.
  destruct (String.eqb_spec (trim text) EmptyString) as [E|_]; [contradiction|].
  unfold tts_say_linux. fold args.
  destruct (run "spd-say" args) as [o|e]; simpl.
  - destruct (status_success o) eqn:Hs; simpl; split; try reflexivity; split; eauto.
    + intros E; discriminate.
    + intros [o' [E Ho]]. inversion E; subst. congruence.
  - split; [reflexivity|]. split; [discriminate|]. intros [o' [E _]]; discriminate.
Qed.

Lemma tts_linux_command_witness :
  snd (tts_say Linux run_ok "merhaba" (Some "tr-TR")) =
    [("spd-say", ["-l"; "tr"; "merhaba"])].
Proof. apply (tts_linux_command run_ok "merhaba" (Some "tr-TR")). discriminate. Defined.

(** On macOS a non-blank text first runs [say -v <voice> <text>]; only when
    that runs but exits with a failure does it run [say <text>] as a
    fallback, and then the result is [Ok] exactly when the fallback runs
    and succeeds. When the first command cannot be executed at all, no
    fallback is tried. *)
Theorem tts_macos_fallback (run : runner) (text : string) (lang : option string) :
  trim text <> EmptyString ->
  let t := sanitize text in
  let c1 := ["-v"; macos_voice (match lang with Some l => l | None => "en-US" end); t] in
  (forall out, run "say" c1 = Ok out -> status_success out = true ->
     tts_say MacOS run text lang = (Ok tt, [("say", c1)])) /\
  (forall out, run "say" c1 = Ok out -> status_success out = false ->
     snd (tts_say MacOS run text lang) = [("say", c1); ("say", [t])] /\
     (fst (tts_say MacOS run text lang) = Ok tt <->
        exists out2, run "say" [t] = Ok out2 /\ status_success out2 = true)) /\
  (forall e, run "say" c1 = Err e ->
     tts_say MacOS run text lang =
       (Err (String.append "Failed to execute 'say' command: " e), [("say", c1)])).
Proof.
  intros H t c1. unfold tts_say.
  destruct (String.eqb_spec (trim text) EmptyString) as [E|_]; [contradiction|].
  unfold tts_say_macos. fold t c1.
  split; [|split].
  - intros out E Hs. rewrite E, Hs. reflexivity.
  - intros out E Hs. rewrite E, Hs. simpl.
    destruct (run "say" [t]) as [o|e]; simpl.
    + destruct (status_success o) eqn:Ho; simpl; split; try reflexivity; split; eauto.
      * intros X; discriminate.
      * intros [o' [X Hx]]. inversion X; subst. congruence.
    + split; [reflexivity|]. split; [discriminate|]. intros [o' [X _]]; discriminate.
  - intros e E. rewrite E. reflexivity.
Qed.

Lemma tts_macos_fallback_witness :
  snd (tts_say MacOS run_no_voice "hello" None) =
    [("say", ["-v"; "Samantha"; "hello"]); ("say", ["hello"])].
Proof.
  destruct (tts_macos_fallback run_no_voice "hello" None ltac:(discriminate))
    as [_ [H2 _]].
  exact (proj1 (H2 _ eq_refl eq_refl)).
Defined.

End TtsExtras.

(** ** Port listing, simulator and buffer debugging *)
Module ProcessFacts.
Import Ports Simulator.

Lemma prefix_append (s t : string) : String.prefix s (String.append s t) = true.
Proof.
  induction s as [|c s IH]; simpl; [destruct t; reflexivity|].
  destruct (Ascii.ascii_dec c c); [exact IH|contradiction].
Qed.

Lemma describe_entry (p : SerialPortInfo) :
  String.prefix (port_name p) (describe p) = true /\
  match port_type p with
  | UsbPort info =>
      describe p = String.append (port_name p) (String.append " (USB: "
        (String.append (match product info with Some s => s | None => "Unknown" end) ")"))
  | _ => describe p = port_name p
  end.
Proof.
  unfold describe. destruct (port_type p); split;
    try reflexivity; try apply prefix_append;
    rewrite <- (ReaderFacts.append_empty_r (port_name p)) at 2; apply prefix_append.
Qed.


End ProcessFacts.

Module ProcessExtras.
Import Proc Ports Simulator Debug ProcessFacts Fixtures.

(** [list_ports] reports an enumeration error as "Failed to list ports: ..";
    otherwise it gives one entry per port, in order, each starting with the
    port name: exactly the name for a non-USB port, and
    "<name> (USB: <product>)" for a USB port, with "Unknown" when the product
    is not known. *)
Theorem list_ports_entries (ports : list SerialPortInfo) (e : string) :
  list_ports (Err e) = Err (String.append "Failed to list ports: " e) /\
  exists names, list_ports (Ok ports) = Ok names /\
    List.length names = List.length ports /\
    forall i p, nth_error ports i = Some p ->
      exists entry, nth_error names i = Some entry /\
        String.prefix (port_name p) entry = true /\
        match port_type p with
        | UsbPort info =>
            entry = String.append (port_name p) (String.append " (USB: "
              (String.append (match product info with Some s => s | None => "Unknown" end) ")"))
        | _ => entry = port_name p
        end.
Proof.
  split; [reflexivity|]. exists (map describe ports). split; [reflexivity|].
  split; [apply length_map|].
  intros i p Hp. exists (describe p). split; [now rewrite nth_error_map, Hp|].
  apply describe_entry.
Qed.



(** [start_simulator] refuses while a simulator process is stored, with
    nothing spawned; every error leaves the stored process as it was; a
    success happens only from the stopped state, once the script is found
    and exists, and stores the process spawned by the single command
    [python <script> --port COM3 --gesture <gesture> --loop]. *)
Theorem start_simulator_outcomes (env : SimEnv) (gesture : string)
    (process : option Child) :
  (forall c, process = Some c ->
     start_simulator env gesture process =
       (Err "Simulator is already running. Stop it first.", process, [])) /\
  (forall msg p' tr, start_simulator env gesture process = (Err msg, p', tr) ->
     p' = process) /\
  (forall p' tr, start_simulator env gesture process = (Ok tt, p', tr) ->
     process = None /\
     exists script child,
       script_path env = Ok script /\ path_exists env script = true /\
       spawn env "python" (simulator_args script gesture) = Ok child /\
       p' = Some child /\
       tr = [("python", [display script; "--port"; "COM3"; "--gesture"; gesture; "--loop"])]).
Proof.
  unfold start_simulator. split; [|split].
  - intros c ->. reflexivity.
  - intros msg p' tr. destruct process; [intros E; inversion E; auto|].
    destruct (script_path env) as [script|e]; [|intros E; inversion E; auto].
    destruct (path_exists env script); simpl; [|intros E; inversion E; auto].
    destruct (spawn env _ _); intros E; inversion E; auto.
  - intros p' tr. destruct process; [intros E; discriminate|].
    destruct (script_path env) as [script|e]; [|discriminate].
    destruct (path_exists env script) eqn:He; simpl; [|discriminate].
    destruct (spawn env _ _) eqn:Hs; intros E; inversion E; subst.
    split; [reflexivity|]. eauto 7.
Qed.

Lemma start_simulator_outcomes_witness :
  start_simulator sim_env "A" (Some 7) =
    (Err "Simulator is already running. Stop it first.", Some 7, []).
Proof. apply (proj1 (start_simulator_outcomes sim_env "A" (Some 7)) 7). reflexivity. Defined.

(** [stop_simulator] always succeeds and clears the stored process, killing
    and then waiting for a stored child first; afterwards
    [is_simulator_running] reports [false] and [start_simulator] no longer
    refuses as already running. After a successful start it reports
    [true]. *)
Theorem simulator_lifecycle (os : target_os) (env : SimEnv) (gesture : string)
    (process : option Child) :
  fst (fst (stop_simulator os process)) = Ok tt /\
  snd (fst (stop_simulator os process)) = None /\
  is_simulator_running (snd (fst (stop_simulator os process))) = Ok false /\
  (forall c, process = Some c -> firstn 2 (snd (stop_simulator os process)) = [Kill c; Wait c]) /\
  fst (fst (start_simulator env gesture (snd (fst (stop_simulator os process))))) <>
    Err "Simulator is already running. Stop it first." /\
  (forall p' tr, start_simulator env gesture process = (Ok tt, p', tr) ->
     is_simulator_running p' = Ok true).
Proof.
  repeat split.
  - intros c ->. reflexivity.
  - simpl. unfold start_simulator, script_path.
    destruct (resource_dir env) as [rd|];
      [destruct (path_exists env _)|]; try destruct (current_dir env) as [cur|e];
      simpl; try destruct (path_exists env _); simpl;
      try destruct (spawn env _ _); simpl; discriminate.
  - intros p' tr E.
    destruct (proj2 (proj2 (start_simulator_outcomes env gesture process)) p' tr E)
      as [_ [script [child [_ [_ [_ [-> _]]]]]]].
    reflexivity.
Qed.

Lemma simulator_lifecycle_witness :
  is_simulator_running (snd (fst (start_simulator sim_env "A" None))) = Ok true.
Proof.
  destruct (simulator_lifecycle Linux sim_env "A" None) as [_ [_ [_ [_ [_ H]]]]].
  apply (H _ (snd (start_simulator sim_env "A" None))). reflexivity.
Defined.

(** [kill_all_simulators] runs exactly one command ([taskkill] on Windows,
    [pkill -f synthetic_asl_simulator.py] elsewhere) and fails only when that
    command cannot be executed; elsewhere than on Windows its exit status is
    ignored, so "no process matched" also reports success. *)
Theorem kill_all_simulators_result (os : target_os) (run : runner) :
  List.length (snd (kill_all_simulators os run)) = 1 /\
  (forall msg, fst (kill_all_simulators os run) = Err msg ->
     exists cmd args e, snd (kill_all_simulators os run) = [(cmd, args)] /\
       run cmd args = Err e /\ msg = String.append "Failed to kill processes: " e) /\
  (os <> Windows -> forall out, run "pkill" ["-f"; "synthetic_asl_simulator.py"] = Ok out ->
     kill_all_simulators os run =
       (Ok "Killed simulator processes", [("pkill", ["-f"; "synthetic_asl_simulator.py"])])).
Proof.
  unfold kill_all_simulators. split; [|split].
  - destruct os; [destruct (run "taskkill" _)|destruct (run "pkill" _)..]; reflexivity.
  - intros msg.
    destruct os; [destruct (run "taskkill" _) eqn:E|destruct (run "pkill" _) eqn:E..];
      simpl; intros H; try discriminate; inversion H; subst; eauto 6.
  - intros Hos out E. destruct os; [contradiction|rewrite E; reflexivity..].
Qed.

Lemma kill_all_simulators_result_witness :
  kill_all_simulators Linux run_status_fail =
    (Ok "Killed simulator processes", [("pkill", ["-f"; "synthetic_asl_simulator.py"])]).
Proof.
  apply (proj2 (proj2 (kill_all_simulators_result Linux run_status_fail)) ltac:(discriminate)
           _ eq_refl).
Defined.

(** [debug_buffer] refuses an empty buffer without creating a file or
    running a command. Otherwise, when the file can be written, it holds the
    header "ch0,ch1,ch2,ch3,ch4" and one line per sample, in order, whatever
    happens next; [Ok] carries the standard output of
    [python <analyze_buffer.py> <temp dir>/buffer_debug.csv] and only when
    that command exits successfully. *)
Theorem debug_buffer_outcomes (env : DebugEnv) (run : runner)
    (samples : list Recorder.SensorSample) :
  (samples = [] -> debug_buffer env run samples = (Err "No samples in buffer", None, [])) /\
  (samples <> [] -> d_open_ok env = true -> d_write_ok env = true ->
     snd (fst (debug_buffer env run samples)) =
       Some ("ch0,ch1,ch2,ch3,ch4" :: map sample_line samples)) /\
  (forall text, fst (fst (debug_buffer env run samples)) = Ok text ->
     exists o args, snd (debug_buffer env run samples) = [("python", args)] /\
       run "python" args = Ok o /\ status_success o = true /\ text = stdout o /\
       nth 1 args EmptyString = display (temp_dir env ++ ["buffer_debug.csv"])).
Proof.
  unfold debug_buffer. split; [|split].
  - intros ->. reflexivity.
  - intros Hne Ho Hw. destruct samples as [|s ss]; [contradiction|].
    rewrite Ho, Hw. simpl.
    destruct (d_current_dir env); [destruct (run _ _) as [o|e]; [destruct (status_success o)|]|];
      reflexivity.
  - intros text. destruct samples as [|s ss]; [discriminate|].
    destruct (d_open_ok env); [|discriminate]. destruct (d_write_ok env); [|discriminate].
    simpl. destruct (d_current_dir env) as [cur|e]; [|discriminate].
    destruct (run "python" _) as [o|e] eqn:E; [|discriminate].
    destruct (status_success o) eqn:Hs; simpl; intros H; [|discriminate].
    inversion H; subst. eexists o, _. repeat split; eauto.
Qed.

Lemma debug_buffer_outcomes_witness :
  debug_buffer debug_env run_ok [] = (Err "No samples in buffer", None, []).
Proof. apply (debug_buffer_outcomes debug_env run_ok []). reflexivity. Defined.

End ProcessExtras.

(** ** Invariants of the reader task *)
Module ReaderInvariants.
Import RStr Reader Observe ReaderFacts.

Lemma find_lt (c : ascii) (s : string) (n : nat) :
  find c s = Some n -> n < String.length s.
Proof.
  revert n. induction s as [|a s IH]; simpl; intros n H; [discriminate|].
  destruct (Ascii.eqb a c); [inversion H; lia|].
  destruct (find c s) as [k|]; simpl in H; [|discriminate].
  inversion H; subst. specialize (IH k eq_refl). lia.
Qed.

Lemma slice_from_length (k : nat) (s : string) :
  String.length (slice_from k s) = String.length s - k.
Proof.
  revert s. induction k as [|k IH]; intros s; simpl; [lia|].
  destruct s; simpl; [reflexivity|apply IH].
Qed.

Lemma find_slice_to (c : ascii) (s : string) (n : nat) :
  find c s = Some n -> find c (slice_to n s) = None.
Proof.
  revert n. induction s as [|a s IH]; simpl; intros n H; [discriminate|].
  destruct (Ascii.eqb a c) eqn:Ha.
  - inversion H; subst. reflexivity.
  - destruct (find c s) as [k|]; simpl in H; [|discriminate].
    inversion H; subst. simpl. rewrite Ha, (IH k eq_refl). reflexivity.
Qed.

Lemma trim_start_no_newline (s : string) :
  has_no_newline s = true -> has_no_newline (trim_start s) = true.
Proof.
  induction s as [|c s IH]; simpl; [auto|].
  intros H. destruct (is_whitespace c); [|exact H].
  apply IH. change (String c s) with (String.append (String c EmptyString) s) in H.
  rewrite has_no_newline_app in H. now apply andb_true_iff in H.
Qed.

Lemma trim_end_no_newline (s : string) :
  has_no_newline s = true -> has_no_newline (trim_end s) = true.
Proof.
  induction s as [|c s IH]; simpl; [auto|].
  intros H.
  change (String c s) with (String.append (String c EmptyString) s) in H.
  rewrite has_no_newline_app in H. apply andb_true_iff in H as [Hc Hs].
  specialize (IH Hs).
  destruct (trim_end s) as [|a t] eqn:E.
  - destruct (is_whitespace c); [reflexivity|exact Hc].
  - change (String c (String a t)) with (String.append (String c EmptyString) (String a t)).
    rewrite has_no_newline_app, Hc. exact IH.
Qed.

Lemma process_line_well_formed (l : string) :
  has_no_newline l = true -> Forall sensor_event_ok (process_line l).
Proof.
  intros H. unfold process_line.
  destruct (String.eqb_spec (trim l) EmptyString) as [E|Hne]; [constructor|].
  destruct (Nat.eqb_spec (List.length (split comma (trim l))) 6) as [E6|]; [|constructor].
  constructor; [|constructor]. split; [reflexivity|]. simpl.
  split; [exact Hne|]. split; [exact E6|].
  unfold trim. apply trim_end_no_newline, trim_start_no_newline, H.
Qed.

(** The line loop leaves no complete line in the buffer, and emits only
    well-formed "sensor-data" events. *)
Lemma drain_lines_spec (fuel : nat) (buf : string) :
  String.length buf <= fuel ->
  has_no_newline (snd (drain_lines fuel buf)) = true /\
  Forall sensor_event_ok (fst (drain_lines fuel buf)).
Proof.
  revert buf. induction fuel as [|fuel IH]; intros buf Hl.
  - destruct buf; simpl in *; [|lia]. split; [reflexivity|constructor].
  - simpl.
    destruct (find newline buf) as [n|] eqn:Hf.
    + pose proof (find_lt _ _ _ Hf) as Hn.
      destruct (IH (slice_from (n + 1) buf)) as [H1 H2];
        [rewrite slice_from_length; lia|].
      destruct (drain_lines fuel (slice_from (n + 1) buf)) as [evs rest].
      simpl in *. split; [exact H1|].
      apply Forall_app. split; [|exact H2].
      apply process_line_well_formed. unfold has_no_newline.
      now rewrite (find_slice_to _ _ _ Hf).
    + simpl. unfold has_no_newline. rewrite Hf. split; [reflexivity|constructor].
Qed.

(** One iteration keeps the buffer free of line feeds and appends
    well-formed events: either no "serial-error" event, or a single one
    that ends the loop. *)
Lemma worker_iteration_spec (st : SerialState) (w : worker) (r : read_result) :
  exists evs, emitted (fst (worker_iteration st w r)) = emitted w ++ evs /\
    Forall well_formed_event evs /\
    (has_no_newline (buffer w) = true ->
       has_no_newline (buffer (fst (worker_iteration st w r))) = true) /\
    (Forall (fun ev => is_serial_error ev = false) evs \/
     (snd (worker_iteration st w r) = Break /\ exists m, evs = [SerialError m])).
Proof.
  unfold worker_iteration.
  destruct (is_connected st); simpl;
    [|exists []; rewrite app_nil_r; repeat split; auto].
  destruct (port st); [|exists []; rewrite app_nil_r; repeat split; auto].
  destruct r as [chunk| |e].
  - destruct (String.eqb chunk EmptyString);
      [exists []; rewrite app_nil_r; repeat split; auto|].
    unfold process_complete_lines.
    destruct (drain_lines_spec (String.length (String.append (buffer w) chunk))
                (String.append (buffer w) chunk) (le_n _)) as [H1 H2].
    destruct (drain_lines _ _) as [evs rest]. simpl in *.
    exists evs. split; [reflexivity|]. split.
    + eapply Forall_impl; [|exact H2]. now intros ev [_ Hw].
    + split; [auto|]. left. eapply Forall_impl; [|exact H2]. now intros ev [He _].
  - exists []; rewrite app_nil_r; repeat split; auto.
  - exists [SerialError (String.append "Read error: " e)]. simpl.
    split; [reflexivity|]. split; [constructor; [simpl; eauto|constructor]|].
    split; [auto|]. right. eauto.
Qed.

Lemma run_worker_spec (st : SerialState) (reads : list read_result) (w : worker) :
  Forall well_formed_event (emitted w) ->
  Forall (fun ev => is_serial_error ev = false) (emitted w) ->
  (has_no_newline (buffer w) = true ->
     has_no_newline (buffer (fst (run_worker st w reads))) = true) /\
  Forall well_formed_event (emitted (fst (run_worker st w reads))) /\
  (Forall (fun ev => is_serial_error ev = false) (emitted (fst (run_worker st w reads))) \/
   (snd (run_worker st w reads) = Break /\
    exists pre m, emitted (fst (run_worker st w reads)) = pre ++ [SerialError m] /\
      Forall (fun ev => is_serial_error ev = false) pre)).
Proof.
  revert w. induction reads as [|r rs IH]; intros w Hw He; simpl.
  - auto.
  - destruct (worker_iteration_spec st w r) as [evs [Hem [Hwf [Hnl Herr]]]].
    destruct (worker_iteration st w r) as [w1 [|]] eqn:E; simpl in *.
    + destruct Herr as [Hne|[Hb _]]; [|discriminate].
      destruct (IH w1) as [A [B C]];
        [rewrite Hem; apply Forall_app; auto|rewrite Hem; apply Forall_app; auto|].
      auto.
    + rewrite Hem. split; [exact Hnl|]. split; [apply Forall_app; auto|].
      destruct Herr as [Hne|[_ [m ->]]].
      * left. apply Forall_app; auto.
      * right. split; [reflexivity|]. exists (emitted w), m. auto.
Qed.

End ReaderInvariants.

(** ** Reader, connection, recorder and prediction: further properties *)
Module CoreExtras.
Import RStr Reader Observe ReaderInvariants Connection App Recorder Predict Fixtures.

(** Over any run of the reader task from its initial state, the buffer
    never keeps a line feed (every complete line is consumed), and every
    "sensor-data" payload emitted is a non-empty line, without line feed,
    of exactly 6 comma-separated fields. *)
Theorem reader_payloads_well_formed (st : SerialState) (reads : list read_result) :
  has_no_newline (buffer (fst (run_worker st initial_worker reads))) = true /\
  Forall well_formed_event (emitted (fst (run_worker st initial_worker reads))).
Proof.
  destruct (run_worker_spec st reads initial_worker) as [A [B _]];
    [constructor|constructor|].
  split; [apply A; reflexivity|exact B].
Qed.

(** The reader task emits at most one "serial-error" event: it is the
    last event, its message is "Read error: ..", and the loop has ended. *)
Theorem reader_error_is_last (st : SerialState) (reads : list read_result) :
  Forall (fun ev => is_serial_error ev = false)
    (emitted (fst (run_worker st initial_worker reads))) \/
  (snd (run_worker st initial_worker reads) = Break /\
   exists pre e, emitted (fst (run_worker st initial_worker reads)) =
                   pre ++ [SerialError (String.append "Read error: " e)] /\
     Forall (fun ev => is_serial_error ev = false) pre).
Proof.
  destruct (run_worker_spec st reads initial_worker) as [_ [B [C|[D [pre [m [E F]]]]]]];
    [constructor|constructor|left; exact C|].
  right. split; [exact D|].
  rewrite E in B. apply Forall_app in B as [_ B]. inversion B as [|x l Hx _]; subst.
  destruct Hx as [e ->]. exists pre, e. auto.
Qed.

(** In every state reached through [connect_serial] and
    [disconnect_serial], [is_connected] is set exactly when a port is
    stored. *)
Theorem reachable_connected_iff_port (st : SerialState) :
  reachable st -> (is_connected st = true <-> exists p, port st = Some p).
Proof.
  intros Hr. split.
  - clear -Hr. induction Hr as [|open name baud st r st' w Hr IH E|st r st' Hr IH E];
      intros Hc.
    + discriminate.
    + unfold connect_serial in E. destruct (is_connected st) eqn:Hst.
      * inversion E; subst. auto.
      * destruct (open name baud 100%N) as [p|e]; inversion E; subst; simpl in *;
          [eauto|congruence].
    + unfold disconnect_serial in E. inversion E; subst. discriminate.
  - intros [p Hp]. destruct (is_connected st) eqn:Hc; [reflexivity|].
    rewrite (ConnectionClaims.reachable_flag_port st Hr Hc) in Hp. discriminate.
Qed.

Lemma reachable_connected_iff_port_witness :
  is_connected connected_state = true <-> exists p, port connected_state = Some p.
Proof.
  apply reachable_connected_iff_port.
  eapply (reach_connect open_always "COM3" 115200%N initial_serial_state);
    [exact reach_init|reflexivity].
Defined.

(** When the port cannot be opened, [connect_serial] reports
    "Failed to open port <name>: <error>", leaves the state unchanged and
    spawns no reader; after [disconnect_serial] a connection whose port
    opens always succeeds, with the port opened with a 100 ms timeout. *)
Theorem connect_serial_open_outcomes (open : port_opener) (name : string) (baud : N)
    (st : SerialState) :
  (forall e, is_connected st = false -> open name baud 100%N = Err e ->
     connect_serial open name baud st =
       (Err (String.append "Failed to open port " (String.append name (String.append ": " e))),
        st, None)) /\
  (forall p, open name baud 100%N = Ok p ->
     connect_serial open name baud (snd (disconnect_serial st)) =
       (Ok tt, {| port := Some p; is_connected := true |}, Some initial_worker)).
Proof.
  unfold connect_serial. split.
  - intros e Hc Ho. now rewrite Hc, Ho.
  - intros p Ho. simpl. now rewrite Ho.
Qed.

Lemma connect_serial_open_outcomes_witness :
  connect_serial (fun _ _ _ => Err "Access is denied.") "COM3" 115200%N initial_serial_state =
    (Err "Failed to open port COM3: Access is denied.", initial_serial_state, None).
Proof.
  apply (proj1 (connect_serial_open_outcomes _ "COM3" 115200%N initial_serial_state)
           "Access is denied."); reflexivity.
Defined.



Lemma map_opt_length {A B : Type} (f : A -> option B) (l : list A) (l' : list B) :
  map_opt f l = Some l' -> List.length l' = List.length l.
Proof.
  revert l'. induction l as [|x l IH]; simpl; intros l' H.
  - now inversion H.
  - destruct (f x); [|discriminate]. destruct (map_opt f l) eqn:E; [|discriminate].
    inversion H; subst. simpl. now rewrite (IH _ eq_refl).
Qed.

Lemma map_opt_None {A B : Type} (f : A -> option B) (l : list A) (x : A) :
  In x l -> f x = None -> map_opt f l = None.
Proof.
  induction l as [|y l IH]; simpl; [contradiction|].
  intros [->|Hin] Hx.
  - now rewrite Hx.
  - destruct (f y); [|reflexivity]. now rewrite (IH Hin Hx).
Qed.

Lemma sample_norms_short (cal : CalibrationData) (smp : SensorSample) :
  List.length (baseline cal) < 5 \/ List.length (maxbend cal) < 5 ->
  sample_norms cal smp = None.
Proof.
  unfold sample_norms. intros [H|H].
  - apply (map_opt_None _ _ (List.length (baseline cal))); [apply in_seq; lia|].
    unfold norm_at. now rewrite (proj2 (nth_error_None _ _) (le_n _)).
  - apply (map_opt_None _ _ (List.length (maxbend cal))); [apply in_seq; lia|].
    unfold norm_at. destruct (nth_error (baseline cal) _); [|reflexivity].
    now rewrite (proj2 (nth_error_None _ _) (le_n _)).
Qed.

Lemma write_rows_fields (env : FsEnv) (u ss g : string) (cal : CalibrationData)
    (samples : list SensorSample) (written : list csv_line) (fp : string) :
  5 <= List.length (baseline cal) -> 5 <= List.length (maxbend cal) ->
  exists rows,
    write_rows env u ss g cal samples written fp = (Returned (Ok fp), Some (written ++ rows)) /\
    Forall2 (fun smp ln => exists row, ln = DataLine row /\
      row_timestamp row = timestamp smp /\ row_user_id row = u /\
      row_session_id row = ss /\ row_class_label row = g /\
      row_raw row = [ch0 smp; ch1 smp; ch2 smp; ch3 smp; ch4 smp] /\
      List.length (row_norm row) = 5 /\
      row_baseline row = firstn 5 (baseline cal) /\ row_maxbend row = firstn 5 (maxbend cal))
      samples rows.
Proof.
  intros Hb Hm. revert written.
  induction samples as [|smp rest IH]; intros written; simpl.
  - exists []. rewrite app_nil_r. split; [reflexivity|constructor].
  - destruct (RecorderClaims.sample_norms_ok cal smp Hb Hm) as [norm [Hn _]].
    rewrite Hn.
    match goal with
    | |- context [write_rows _ _ _ _ _ rest ?w _] => destruct (IH w) as [rows [Hw Hf]]
    end.
    rewrite Hw. eexists. split.
    + rewrite <- app_assoc. reflexivity.
    + constructor; [|exact Hf]. eexists. split; [reflexivity|]. simpl.
      repeat split. apply (map_opt_length _ _ _ Hn).
Qed.



(** When every I/O step succeeds and the calibration has 5 entries per
    list, [save_recording] returns the path
    "<app data>/recordings/<user>_<session>_<gesture>_<secs>.csv" and the
    file holds the header and one row per sample, in order, carrying its
    timestamp, the user, session and gesture, the 5 raw channels, 5
    normalized values and the first 5 calibration entries. *)
Theorem save_recording_rows (env : FsEnv) (samples : list SensorSample)
    (gesture user_id session_id : string) (cal : CalibrationData) (dir : string) :
  app_data_dir env = Some dir -> create_dir_ok env = true ->
  open_ok env = true -> write_ok env = true ->
  5 <= List.length (baseline cal) -> 5 <= List.length (maxbend cal) ->
  exists lines,
    save_recording env samples gesture user_id session_id cal =
      (Returned (Ok (String.append dir (String.append "/recordings/"
         (String.append user_id (String.append "_" (String.append session_id
           (String.append "_" (String.append gesture (String.append "_"
             (String.append (N_to_string (now_secs env)) ".csv")))))))))),
       Some (HeaderLine csv_header :: lines)) /\
    Forall2 (fun smp ln => exists row, ln = DataLine row /\
      row_timestamp row = timestamp smp /\ row_user_id row = user_id /\
      row_session_id row = session_id /\ row_class_label row = gesture /\
      row_raw row = [ch0 smp; ch1 smp; ch2 smp; ch3 smp; ch4 smp] /\
      List.length (row_norm row) = 5 /\
      row_baseline row = firstn 5 (baseline cal) /\ row_maxbend row = firstn 5 (maxbend cal))
      samples lines.
Proof.
  intros Hd Hc Ho Hw Hb Hm.
  unfold save_recording. rewrite Hd, Hc, Ho, Hw. simpl.
  match goal with
  | |- context [write_rows _ _ _ _ _ _ ?w ?fp] =>
      destruct (write_rows_fields env user_id session_id gesture cal samples w fp Hb Hm)
        as [rows [Hwr Hf]]
  end.
  rewrite Hwr, ReaderFacts.append_assoc. exists rows. split; [reflexivity|exact Hf].
Qed.

Lemma save_recording_rows_witness :
  exists lines,
    save_recording fs_ok [sample_a] "A" "u1" "s1" calibration5 =
      (Returned (Ok "/home/u/.local/share/glove/recordings/u1_s1_A_1700000000.csv"),
       Some (HeaderLine csv_header :: lines)) /\
    Forall2 (fun smp ln => exists row, ln = DataLine row /\
      row_timestamp row = timestamp smp /\ row_user_id row = "u1" /\
      row_session_id row = "s1" /\ row_class_label row = "A" /\
      row_raw row = [ch0 smp; ch1 smp; ch2 smp; ch3 smp; ch4 smp] /\
      List.length (row_norm row) = 5 /\
      row_baseline row = firstn 5 (baseline calibration5) /\
      row_maxbend row = firstn 5 (maxbend calibration5))
      [sample_a] lines.
Proof.
  apply (save_recording_rows fs_ok [sample_a] "A" "u1" "s1" calibration5
           "/home/u/.local/share/glove"); try reflexivity; simpl; lia.
Defined.

(** With a calibration of fewer than 5 baseline or max-bend entries and at
    least one sample, [save_recording] creates the file, writes the header
    and then panics on the first sample, leaving a header-only file. *)
Theorem save_recording_short_calibration (env : FsEnv) (samples : list SensorSample)
    (gesture user_id session_id : string) (cal : CalibrationData) (dir : string) :
  app_data_dir env = Some dir -> create_dir_ok env = true ->
  open_ok env = true -> write_ok env = true -> samples <> [] ->
  List.length (baseline cal) < 5 \/ List.length (maxbend cal) < 5 ->
  save_recording env samples gesture user_id session_id cal =
    (Panicked "index out of bounds", Some [HeaderLine csv_header]).
Proof.
  intros Hd Hc Ho Hw Hs Hl.
  unfold save_recording. rewrite Hd, Hc, Ho, Hw. simpl.
  destruct samples as [|smp rest]; [contradiction|]. simpl.
  now rewrite (sample_norms_short cal smp Hl).
Qed.

Lemma save_recording_short_calibration_witness :
  save_recording fs_ok [sample_a] "A" "u1" "s1"
    {| baseline := [50; 60; 70; 80; 90]%Z; maxbend := [150]%Z |} =
    (Panicked "index out of bounds", Some [HeaderLine csv_header]).
Proof.
  apply (save_recording_short_calibration _ _ _ _ _ _ "/home/u/.local/share/glove");
    try reflexivity; [discriminate|simpl; lia].
Defined.

(** With at least 50 samples [predict_gesture] sends exactly one request:
    device "desktop-app", one vector of the 5 channel readings per sample,
    in order. It returns [Ok] exactly when the API answers with a success
    status and a response that parses, and then carries that response's
    letter and confidence. *)
Theorem predict_gesture_request
    (send : ApiRequest -> result (bool * string))
    (parse : string -> option ApiResponse) (samples : list SensorSample) :
  50 <= List.length samples ->
  exists req, snd (predict_gesture send parse samples) = [req] /\
    device_id req = "desktop-app" /\
    Forall2 (fun smp v => v = [inject_Z (ch0 smp); inject_Z (ch1 smp); inject_Z (ch2 smp);
                               inject_Z (ch3 smp); inject_Z (ch4 smp)])
      samples (flex_sensors req) /\
    (forall pr, fst (predict_gesture send parse samples) = Ok pr <->
       exists text r, send req = Ok (true, text) /\ parse text = Some r /\
         pr = {| p_letter := letter r; p_confidence := confidence r |}).
Proof.
  intros H. unfold predict_gesture.
  destruct (Nat.eqb_spec (List.length samples) 0); [lia|].
  destruct (Nat.ltb_spec (List.length samples) 50); [lia|].
  set (req := {| flex_sensors := _; device_id := _ |}).
  assert (Hf : Forall2 (fun smp v => v = [inject_Z (ch0 smp); inject_Z (ch1 smp);
                 inject_Z (ch2 smp); inject_Z (ch3 smp); inject_Z (ch4 smp)])
                 samples (flex_sensors req)).
  { simpl. clear. induction samples as [|smp rest IH]; simpl; constructor; auto. }
  exists req. destruct (send req) as [[ok text]|e] eqn:Es.
  - destruct ok; simpl.
    + destruct (parse text) as [r|] eqn:Ep; simpl; repeat split; auto; intros Hx.
      * inversion Hx; subst. eauto.
      * destruct Hx as [t [r' [E1 [E2 ->]]]]. inversion E1; subst. congruence.
      * discriminate.
      * destruct Hx as [t [r' [E1 [E2 _]]]]. inversion E1; subst. congruence.
    + repeat split; auto; intros Hx; [discriminate|].
      destruct Hx as [t [r' [E1 _]]]. discriminate.
  - simpl. repeat split; auto; intros Hx; [discriminate|].
    destruct Hx as [t [r' [E1 _]]]. discriminate.
Qed.

Lemma predict_gesture_request_witness :
  exists req,
    snd (predict_gesture (fun _ => Ok (true, "{}")) (fun _ => None) (repeat sample_a 50)) =
      [req] /\
    device_id req = "desktop-app" /\
    Forall2 (fun smp v => v = [inject_Z (ch0 smp); inject_Z (ch1 smp); inject_Z (ch2 smp);
                               inject_Z (ch3 smp); inject_Z (ch4 smp)])
      (repeat sample_a 50) (flex_sensors req) /\
    (forall pr,
       fst (predict_gesture (fun _ => Ok (true, "{}")) (fun _ => None) (repeat sample_a 50)) =
         Ok pr <->
       exists text r, Ok (true, "{}") = Ok (true, text) /\ (None : option ApiResponse) = Some r /\
         pr = {| p_letter := letter r; p_confidence := confidence r |}).
Proof.
  apply predict_gesture_request. simpl. lia.
Defined.

End CoreExtras.
